(** * ESMValCore: the ESACCI-OC cmorizer and the CMIP5 fix registry

    A shallow embedding of
    [esmvaltool/utils/cmorizers/obs/cmorize_obs_ESACCI-OC.py] and of the
    behaviour pinned down by the integration tests under
    [tests/integration/cmor/_fixes/cmip5/].

    Conventions of the embedding.
    - Python exceptions are values of [exn]; a call that may raise returns
      a [result].  Code that touches the file system runs in [M], a state
      and error monad over the store of netCDF files.
    - Python floats are IEEE binary64 numbers: [PrimFloat.float].  The
      values of a [float32] array are binary32 numbers: [spec_float] with
      the operations of [SpecFloat] at precision 24.
    - A [dict] used as a map is a [gmap]; a [dict] that is iterated in
      insertion order is an association list.
    - Objects that Python mutates in place (cubes, attribute dictionaries)
      are passed and returned explicitly.
    - Calls to [logger.info] have no effect on any value and are left out. *)

From Stdlib Require Import ZArith Ascii String List DecimalString.
From Corelib Require Import PrimFloat SpecFloat FloatOps.
From stdpp Require Import base option gmap strings list sorting.

Set Warnings "-inexact-float".
Set Default Proof Using "Type".
Open Scope string_scope.
Open Scope Z_scope.

(** ** Exceptions and results *)

(** The exception classes that the modelled code can meet.
    [ArithmeticError] is what iris raises when it refuses an in-place
    operation; it carries the name of the operation, which iris' message
    shows together with the operands.  [LibError] stands for whatever a
    third-party call raises on its own account. *)
Inductive exn : Type :=
| KeyError (key : string)
| NameError (name : string)
| OSError (path : string)
| ValueError (msg : string)
| ArithmeticError (operation : string)
| LibError (msg : string).

Inductive result (A : Type) : Type :=
| Ok (a : A)
| Raise (e : exn).
Arguments Ok {A} a.
Arguments Raise {A} e.

Definition bindR {A B} (r : result A) (k : A → result B) : result B :=
  match r with
  | Ok a => k a
  | Raise e => Raise e
  end.

Declare Scope res_scope.
Delimit Scope res_scope with res.
Notation "x ←r c ; k" := (bindR c (λ x, k))
  (at level 100, c at next level, right associativity) : res_scope.
Open Scope res_scope.

(** A [for] loop whose body may raise: the first exception ends the loop. *)
Fixpoint foldR {S X} (body : S → X → result S) (st : S) (xs : list X)
  : result S :=
  match xs with
  | [] => Ok st
  | x :: xs' => st' ←r body st x; foldR body st' xs'
  end.

(** [d[k]] on a dictionary: [KeyError] when the key is absent. *)
Definition getitem {V} (d : gmap string V) (k : string) : result V :=
  match d !! k with
  | Some v => Ok v
  | None => Raise (KeyError k)
  end.

(** [del d[k]]: [KeyError] when the key is absent. *)
Definition delitem {V} (d : gmap string V) (k : string)
  : result (gmap string V) :=
  match d !! k with
  | Some _ => Ok (delete k d)
  | None => Raise (KeyError k)
  end.

(** ** Iris cubes *)

(** The definition of a coordinate: what [Coord._as_defn()] compares. *)
Record CoordDefn : Type := {
  coord_standard_name : option string;
  coord_long_name : option string;
  coord_var_name : option string;
  coord_units : string;
  coord_attributes : gmap string string;
}.

Global Instance CoordDefn_eq_dec : EqDecision CoordDefn.
Proof. solve_decision. Defined.

Record Coord : Type := {
  coord_defn : CoordDefn;
  coord_points : list float;
}.

(** [cube.metadata]: the six fields of iris' [CubeMetadata]. *)
Record CubeMetadata : Type := {
  standard_name : option string;
  long_name : option string;
  var_name : option string;
  units : string;
  attributes : gmap string string;
  cell_methods : list string;
}.

(** The data of a cube, [cube.data]: a numpy array of one element type,
    here with its values in a row.  The element types are those of the
    variables of a netCDF file that the development tells apart: the two
    floating-point types and the integers. *)
Inductive CubeData : Type :=
| Float64 (values : list float)
| Float32 (values : list spec_float)
| Int64 (values : list Z).

(** A cube.  Coordinates come with the data dimensions they span (none
    for a scalar coordinate).  [cube_coordinates] is the ad-hoc instance
    attribute [cube.coordinates] that [_add_depth_coord] sets; it is
    [None] while the attribute does not exist. *)
Record Cube : Type := {
  cube_metadata : CubeMetadata;
  cube_data : CubeData;
  cube_dim_coords : list (Coord * list nat);
  cube_aux_coords : list (Coord * list nat);
  cube_coordinates : option string;
}.

(** [coord.name()]: the first of standard name, long name and variable
    name that is set, ["unknown"] otherwise. *)
Definition coord_name (c : Coord) : string :=
  match coord_standard_name (coord_defn c) with
  | Some n => n
  | None =>
    match coord_long_name (coord_defn c) with
    | Some n => n
    | None => default "unknown" (coord_var_name (coord_defn c))
    end
  end.

Definition cube_all_coords (cube : Cube) : list Coord :=
  (cube_dim_coords cube).*1 ++ (cube_aux_coords cube).*1.

(** [cube.coords(name)]: the coordinates whose [name()] is [name]. *)
Definition cube_coords (cube : Cube) (name : string) : list Coord :=
  filter (λ c, coord_name c = name) (cube_all_coords cube).

(** [cube.add_aux_coord(coord)] for a scalar coordinate: iris refuses a
    coordinate whose definition is already present on the cube. *)
Definition add_aux_coord (cube : Cube) (coord : Coord) : result Cube :=
  if bool_decide (Exists (λ c, coord_defn c = coord_defn coord)
                         (cube_all_coords cube))
  then Raise (ValueError "Duplicate coordinates are not permitted.")
  else Ok {| cube_metadata := cube_metadata cube;
             cube_data := cube_data cube;
             cube_dim_coords := cube_dim_coords cube;
             cube_aux_coords := (cube_aux_coords cube ++ [(coord, [])])%list;
             cube_coordinates := cube_coordinates cube |}.

Definition set_coordinates (cube : Cube) (v : string) : Cube :=
  {| cube_metadata := cube_metadata cube;
     cube_data := cube_data cube;
     cube_dim_coords := cube_dim_coords cube;
     cube_aux_coords := cube_aux_coords cube;
     cube_coordinates := Some v |}.

Definition set_metadata (cube : Cube) (m : CubeMetadata) : Cube :=
  {| cube_metadata := m;
     cube_data := cube_data cube;
     cube_dim_coords := cube_dim_coords cube;
     cube_aux_coords := cube_aux_coords cube;
     cube_coordinates := cube_coordinates cube |}.

(** The coordinate built on lines 53-60 of the cmorizer. *)
Definition depth_coord : Coord :=
  {| coord_defn :=
       {| coord_standard_name := Some "depth";
          coord_long_name := Some "depth";
          coord_var_name := Some "depth";
          coord_units := "m";
          coord_attributes := {[ "positive" := "down" ]} |};
     coord_points := [1%float] |}.

(** [_add_depth_coord(cube)], lines 50-62.  Python mutates the cube and
    returns [None]; the embedding returns the cube after the call. *)
Definition _add_depth_coord (cube : Cube) : result Cube :=
  match cube_coords cube "depth" with
  | [] =>
    cube ←r add_aux_coord cube depth_coord;
    Ok (set_coordinates cube "depth")
  | _ :: _ => Ok cube
  end.

(** What the development leaves open about an in-place arithmetic
    operation of iris and numpy, because it differs between their
    versions.  [cube.attributes] is a dictionary object, and a
    [cube.metadata] tuple that was taken before the operation holds that
    object, not a copy of it. *)
Class IrisMaths : Type := {
  (** [cube.metadata] after the operation (iris resets the identity of
      the phenomenon). *)
  maths_metadata : CubeMetadata → CubeMetadata;
  (** The contents, after the operation, of the dictionary object that
      was [cube.attributes] before it. *)
  maths_attributes : gmap string string → gmap string string;
  (** The product of an element of a [float32] array and a Python float,
      which is again a [float32]: numpy rounds the product to binary32,
      after rounding the factor to binary32 or not. *)
  mul_float32 : spec_float → float → spec_float;
}.

(** The conversion of a Python float to [float32]: rounding to the
    nearest binary32 number. *)
Definition float32_of_float (x : float) : spec_float :=
  match Prim2SF x with
  | S754_finite s m e => binary_round_aux 24 128 s (Z.pos m) e loc_Exact
  | other => other
  end.

(** [data *= k] on the array of a cube for a Python float [k].  The
    product is taken element by element in the element type of the array:
    in binary64 for a [float64] array.  iris checks, before it touches
    the data, that a float can be cast to the element type, and raises
    [ArithmeticError] for an array of integers. *)
Definition imul_data `{IrisMaths} (data : CubeData) (k : float)
  : result CubeData :=
  match data with
  | Float64 values => Ok (Float64 (map (λ v, v * k)%float values))
  | Float32 values => Ok (Float32 (map (λ v, mul_float32 v k) values))
  | Int64 _ => Raise (ArithmeticError "multiplication")
  end.

(** [cube *= k] for a Python float [k].  The second component follows
    the dictionary object that is [cube.attributes] when the statement
    starts: its contents when the statement has ended. *)
Definition cube_imul `{IrisMaths} (cube : Cube) (k : float)
  : result (Cube * gmap string string) :=
  data ←r imul_data (cube_data cube) k;
  Ok ({| cube_metadata := maths_metadata (cube_metadata cube);
         cube_data := data;
         cube_dim_coords := cube_dim_coords cube;
         cube_aux_coords := cube_aux_coords cube;
         cube_coordinates := cube_coordinates cube |},
      maths_attributes (attributes (cube_metadata cube))).

(** Modelled from the spec: [constant_metadata] is imported from
    [utilities.py], which is not among the sources.  By its name and its
    use it is a context manager that keeps the metadata of the cube
    constant across its body: it takes [cube.metadata] on entry and
    assigns it back on exit.  The names, the units and the cell methods
    of the tuple are values; its attributes are the dictionary object of
    the cube, so what is assigned back are the contents that the body
    has left in that object, which the body returns beside the cube.  An
    exception of the body leaves the [with] statement at once. *)
Definition constant_metadata (cube : Cube)
    (body : Cube → result (Cube * gmap string string)) : result Cube :=
  let metadata := cube_metadata cube in
  r ←r body cube;
  Ok (set_metadata r.1
        {| standard_name := standard_name metadata;
           long_name := long_name metadata;
           var_name := var_name metadata;
           units := units metadata;
           attributes := r.2;
           cell_methods := cell_methods metadata |}).

(** [_fix_data(cube, var)], lines 41-47. *)
Definition _fix_data `{IrisMaths} (cube : Cube) (var : string)
  : result Cube :=
  constant_metadata cube
    (λ cube, if bool_decide (var = "chl")
             then cube_imul cube 1e-06%float
             else Ok (cube, attributes (cube_metadata cube))).

(** ** Strings and paths *)

(** [sep.join(parts)]. *)
Fixpoint str_join (sep : string) (parts : list string) : string :=
  match parts with
  | [] => ""
  | s :: rest =>
    match rest with
    | [] => s
    | _ :: _ => s +:+ sep +:+ str_join sep rest
    end
  end.

(** [s] put [n] times in front of [c]: what [c = s + c] gives after [n]
    rounds. *)
Fixpoint prepend_times (n : nat) (s c : string) : string :=
  match n with
  | O => c
  | S n' => s +:+ prepend_times n' s c
  end.

(** ["{}".format(n)] for a Python [int]. *)
Definition format_int (n : Z) : string :=
  NilZero.string_of_int (Z.to_int n).

Fixpoint ends_with_sep (s : string) : bool :=
  match s with
  | "" => false
  | String c rest =>
    match rest with
    | "" => bool_decide (c = "/"%char)
    | String _ _ => ends_with_sep rest
    end
  end.

(** [os.path.join(a, b)] on a POSIX system. *)
Definition os_path_join (a b : string) : string :=
  if String.prefix "/" b then b
  else if bool_decide (a = "") || ends_with_sep a then a +:+ b
  else a +:+ "/" +:+ b.

(** [sorted(paths)].  Python compares strings by code point, which on the
    UTF-8 bytes of a Rocq string is the order [String.le]; the order is
    total, so every sorting algorithm returns the same list. *)
Definition sorted (paths : list string) : list string :=
  merge_sort String.le paths.

(** ** The cmorizer *)

(** [raw_info], the dictionary with the keys ['name'] and ['file'] that
    [cmorization] builds on line 164. *)
Record RawInfo : Type := {
  ri_name : string;
  ri_file : string;
}.

(** A value of the [encoding] argument of [Dataset.to_netcdf]. *)
Inductive enc_value : Type :=
| EncBool (b : bool)
| EncStr (s : string)
| EncFloat (f : float).

(** One entry of [CFG['variables']]. *)
Record VarCfg : Type := {
  vc_mip : string;
  vc_raw : string;
  vc_file : string;
}.

(** [CFG], the result of [read_cmor_config('ESACCI-OC.yml')] (line 38), as
    far as the module reads it.  [CFG['cmor_table']] is represented by
    [get_variable] of the class [Utilities] below.  [cfg_variables] keeps the
    order of the YAML file, which is the order of [.items()]. *)
Record Config : Type := {
  cfg_attributes : gmap string string;
  cfg_variables : list (string * VarCfg);
  cfg_bin_size : Z;
}.

(** *** xarray and the file system *)

(** A [DataArray]: its values and coordinates, of a type [Arr] that the
    module only hands from one xarray call to the next, and its
    attributes. *)
Record DataArray (Arr : Type) : Type := {
  da_values : Arr;
  da_attrs : gmap string string;
}.
Arguments da_values {Arr} _.
Arguments da_attrs {Arr} _.

Record Dataset (Arr : Type) : Type := {
  ds_vars : gmap string (DataArray Arr);
  ds_attrs : gmap string string;
}.
Arguments ds_vars {Arr} _.
Arguments ds_attrs {Arr} _.

(** A netCDF file on disk: its contents and how they were encoded. *)
Record NcFile (Arr : Type) : Type := {
  nc_dataset : Dataset Arr;
  nc_encoding : gmap string (gmap string enc_value);
  nc_unlimited_dims : list string;
}.
Arguments nc_dataset {Arr} _.
Arguments nc_encoding {Arr} _.
Arguments nc_unlimited_dims {Arr} _.

(** The store: the readable netCDF files by path. *)
Abbreviation FS Arr := (gmap string (NcFile Arr)).

(** The state and error monad of the code that reads and writes files. *)
Definition M (Arr A : Type) : Type := FS Arr → result A * FS Arr.

(** The calls into xarray. *)
Class Xarray (Arr : Type) : Type := {
  (** [a.sel(lat=slice(None, None, -1))] on the values; indexing keeps
      the attributes.  It raises when there is no [lat] dimension. *)
  sel_lat_reversed : Arr → result Arr;
  (** [da.coarsen(dim=bins, boundary='exact').mean()]. *)
  coarsen_mean : string → Z → DataArray Arr → result (DataArray Arr);
  (** [xr.concat((a, b), dim=dim)]. *)
  concat : DataArray Arr → DataArray Arr → string → result (DataArray Arr);
}.

(** The file system besides the contents of the netCDF files. *)
Class FileSystem (Arr : Type) : Type := {
  (** [glob.glob(pattern)]: the matching paths, in the order in which
      the file system enumerates them.  A returned path need not be a
      readable netCDF file. *)
  glob : FS Arr → string → list string;
  (** Whether a file can be created or replaced at a path. *)
  can_write : string → bool;
}.

(** The CMOR table, [iris.load], and the helpers imported from
    [utilities.py], which is not among the sources: each of
    [fix_var_metadata], [fix_coords] and [set_global_atts] works on the
    cube it is given, and [save_variable] writes files. *)
Class Utilities (Arr VarInfo : Type) : Type := {
  (** The attribute access [var_info.short_name]. *)
  short_name : VarInfo → result string;
  (** [cmor_table.get_variable(mip, var)]. *)
  get_variable : string → string → result VarInfo;
  (** [iris.load(path)]. *)
  iris_load : FS Arr → string → result (list Cube);
  fix_var_metadata : Cube → VarInfo → result Cube;
  fix_coords : Cube → result Cube;
  set_global_atts : Cube → gmap string string → result Cube;
  save_variable :
    Cube → string → string → gmap string string →
    list string → list string → M Arr unit;
}.

Section Cmorizer.

Context {Arr VarInfo : Type}.
Context `{IrisMaths, Xarray Arr, FileSystem Arr, Utilities Arr VarInfo}.

Local Abbreviation FS := (FS Arr).
Local Abbreviation M := (M Arr).
Local Abbreviation DataArray := (DataArray Arr).
Local Abbreviation Dataset := (Dataset Arr).

Definition retM {A} (a : A) : M A := λ fs, (Ok a, fs).

Definition bindM {A B} (m : M A) (k : A → M B) : M B :=
  λ fs, match m fs with
        | (Ok a, fs') => k a fs'
        | (Raise e, fs') => (Raise e, fs')
        end.

Definition liftR {A} (r : result A) : M A := λ fs, (r, fs).

Definition readM {A} (f : FS → result A) : M A := λ fs, (f fs, fs).

Local Notation "x ←m c ; k" := (bindM c (λ x, k))
  (at level 100, c at next level, right associativity).

Fixpoint foldM {S X} (body : S → X → M S) (st : S) (xs : list X) : M S :=
  match xs with
  | [] => retM st
  | x :: xs' => st' ←m body st x; foldM body st' xs'
  end.

(** [xr.open_dataset(x)]. *)
Definition open_dataset (fs : FS) (x : string) : result Dataset :=
  match fs !! x with
  | Some f => Ok (nc_dataset f)
  | None => Raise (OSError x)
  end.

Definition sel_lat (da : DataArray) : result DataArray :=
  v ←r sel_lat_reversed (da_values da);
  Ok {| da_values := v; da_attrs := da_attrs da |}.

(** [del da.attrs[key]]. *)
Definition del_attr (da : DataArray) (key : string) : result DataArray :=
  attrs ←r delitem (da_attrs da) key;
  Ok {| da_values := da_values da; da_attrs := attrs |}.

(** [ds.to_netcdf(path, encoding=..., unlimited_dims=...)]. *)
Definition to_netcdf (ds : Dataset)
    (path : string) (encoding : gmap string (gmap string enc_value))
    (unlimited_dims : list string) : M unit :=
  λ fs, if can_write path
        then (Ok (), <[path := {| nc_dataset := ds;
                                   nc_encoding := encoding;
                                   nc_unlimited_dims := unlimited_dims |}]> fs)
        else (Raise (OSError path), fs).

(** [os.remove(path)]. *)
Definition os_remove (path : string) : M unit :=
  λ fs, match fs !! path with
        | Some _ => (Ok (), delete path fs)
        | None => (Raise (OSError path), fs)
        end.

(** *** [merge_data], lines 88-147 *)

(** Line 91. *)
Definition do_bin_of (bins : Z) : bool :=
  (bins `mod` 2 =? 0) && negb (bins =? 0).

(** The local variables that the loop of lines 93-122 assigns; [None]
    while a name is unbound. *)
Record merge_locals : Type := {
  newda : option DataArray;
  dsmeta : option (gmap string string);
}.

(** Lines 114-119. *)
Definition binning_text (do_bin : bool) (bins : Z) : string :=
  if do_bin
  then str_join " " ["Data binned using "; format_int bins; "by";
                     format_int bins; "cells average"]
  else "".

(** One iteration of the loop, lines 94-122. *)
Definition merge_body (fs : FS) (var : string) (do_bin : bool) (bins : Z)
    (datafile : list string) (st : merge_locals) (x : string)
  : result merge_locals :=
  ds ←r open_dataset fs x;
  da ←r getitem (ds_vars ds) var;
  da ←r sel_lat da;
  da ←r foldR del_attr da
          ["grid_mapping"; "ancillary_variables"; "parameter_vocab_uri"];
  da ←r (if do_bin
         then da ←r coarsen_mean "lat" bins da; coarsen_mean "lon" bins da
         else Ok da);
  if bool_decide (datafile !! 0%nat = Some x) then
    meta ←r foldR (λ (d : gmap string string) y,
                     v ←r getitem (ds_attrs ds) y; Ok (<[y := v]> d))
              ∅ ["creator_name"; "creator_url"; "license"; "sensor";
                 "processing_level"];
    Ok {| newda := Some da;
          dsmeta := Some (<["BINNING" := binning_text do_bin bins]> meta) |}
  else
    old ←r from_option Ok (Raise (NameError "newda")) (newda st);
    new ←r concat old da "time";
    Ok {| newda := Some new; dsmeta := dsmeta st |}.

(** Lines 128-141. *)
Definition merge_encoding (var : string)
  : gmap string (gmap string enc_value) :=
  <[var := {[ "_FillValue" := EncFloat 1e20%float ]}]>
    (<["time" := {[ "calendar" := EncStr "gregorian" ]}]>
       (<["lon" := {[ "_FillValue" := EncBool false ]}]>
          (<["lat" := {[ "_FillValue" := EncBool false ]}]> ∅))).

(** [newda.to_dataset(name=var)] followed by the loop of lines 126-127. *)
Definition merged_dataset (var : string) (da : DataArray)
    (meta : gmap string string) : Dataset :=
  {| ds_vars := {[ var := da ]}; ds_attrs := meta ∪ ∅ |}.

Definition merge_data (in_dir out_dir : string) (raw_info : RawInfo)
    (bins : Z) : M (string * string) :=
  let var := ri_name raw_info in
  let do_bin := do_bin_of bins in
  datafile ←m readM (λ fs, Ok (sorted
                (glob fs (in_dir +:+ "/" +:+ ri_file raw_info +:+ "*.nc"))));
  st ←m readM (λ fs, foldR (merge_body fs var do_bin bins datafile)
                       {| newda := None; dsmeta := None |} datafile);
  da ←m liftR (from_option Ok (Raise (NameError "newda")) (newda st));
  meta ←m liftR (from_option Ok (Raise (NameError "dsmeta")) (dsmeta st));
  let ds := merged_dataset var da meta in
  let datafile := os_path_join out_dir (ri_file raw_info +:+ "_merged.nc") in
  _ ←m to_netcdf ds datafile (merge_encoding var) ["time"];
  binning ←m liftR (getitem meta "BINNING");
  retM (datafile, binning).

(** *** [extract_variable], lines 65-85 *)

(** One iteration of the loop of lines 71-85.  [done] collects the cubes
    that the loop has gone past, as they are after the iteration. *)
Definition extract_body (var_info : VarInfo) (var rawvar out_dir : string)
    (attrs : gmap string string) (done : list Cube) (cube : Cube)
  : M (list Cube) :=
  if bool_decide (var_name (cube_metadata cube) = Some rawvar) then
    cube ←m liftR (fix_var_metadata cube var_info);
    cube ←m liftR (fix_coords cube);
    cube ←m liftR (_add_depth_coord cube);
    cube ←m liftR (_fix_data cube var);
    cube ←m liftR (set_global_atts cube attrs);
    _ ←m save_variable cube var out_dir attrs ["coordinates"] ["time"];
    retM (done ++ [cube])%list
  else retM (done ++ [cube])%list.

(** Python returns [None]; the embedding returns the loaded cubes as they
    are when the function returns. *)
Definition extract_variable (var_info : VarInfo) (raw_info : RawInfo)
    (out_dir : string) (attrs : gmap string string) : M (list Cube) :=
  var ←m liftR (short_name var_info);
  cubes ←m readM (λ fs, iris_load fs (ri_file raw_info));
  let rawvar := ri_name raw_info in
  foldM (extract_body var_info var rawvar out_dir attrs) [] cubes.

(** *** [cmorization], lines 150-176 *)

Variable CFG : Config.

(** The local variables that the loop of lines 161-173 assigns. *)
Record cmor_locals : Type := {
  l_glob_attrs : gmap string string;
  l_inpfile : option string;
}.

(** One iteration of the loop, lines 162-173. *)
Definition cmorization_body (in_dir out_dir : string) (st : cmor_locals)
    (item : string * VarCfg) : M cmor_locals :=
  let var := item.1 in
  let vals := item.2 in
  var_info ←m liftR (get_variable (vc_mip vals) var);
  let glob_attrs := <["mip" := vc_mip vals]> (l_glob_attrs st) in
  let raw_info := {| ri_name := vc_raw vals; ri_file := vc_file vals |} in
  merged ←m merge_data in_dir out_dir raw_info (cfg_bin_size CFG);
  let inpfile := merged.1 in
  let addinfo := merged.2 in
  let raw_info := {| ri_name := ri_name raw_info; ri_file := inpfile |} in
  comment ←m liftR (getitem glob_attrs "comment");
  let glob_attrs := <["comment" := addinfo +:+ comment]> glob_attrs in
  _ ←m extract_variable var_info raw_info out_dir glob_attrs;
  retM {| l_glob_attrs := glob_attrs; l_inpfile := Some inpfile |}.

(** Python returns [None]; [glob_attrs] is the dictionary [CFG['attributes']]
    itself, which the loop updates in place, and the embedding returns it
    as it is when the function returns. *)
Definition cmorization (in_dir out_dir : string) : M (gmap string string) :=
  let glob_attrs := cfg_attributes CFG in
  _ ←m liftR (getitem glob_attrs "tier");
  _ ←m liftR (getitem glob_attrs "dataset_id");
  st ←m foldM (cmorization_body in_dir out_dir)
          {| l_glob_attrs := glob_attrs; l_inpfile := None |}
          (cfg_variables CFG);
  inpfile ←m liftR (from_option Ok (Raise (NameError "inpfile"))
                      (l_inpfile st));
  _ ←m os_remove inpfile;
  retM (l_glob_attrs st).

(** *** The sequence of [merge_data] in the words of the specification *)

(** Open the dataset, select the named variable with latitude reversed,
    delete the three attributes. *)
Definition select_variable (fs : FS) (var x : string)
  : result (Dataset * DataArray) :=
  ds ←r open_dataset fs x;
  da ←r getitem (ds_vars ds) var;
  da ←r sel_lat da;
  da ←r del_attr da "grid_mapping";
  da ←r del_attr da "ancillary_variables";
  da ←r del_attr da "parameter_vocab_uri";
  Ok (ds, da).

(** Coarsen over [lat], then over [lon]. *)
Definition coarsen_lat_lon (bins : Z) (da : DataArray) : result DataArray :=
  da ←r coarsen_mean "lat" bins da;
  coarsen_mean "lon" bins da.

Definition select_and_coarsen (fs : FS) (var : string) (bins : Z) (x : string)
  : result (Dataset * DataArray) :=
  r ←r select_variable fs var x;
  da ←r coarsen_lat_lon bins r.2;
  Ok (r.1, da).

(** The sequence per file; the coarsening is optional. *)
Definition per_file (binned : bool) (fs : FS) (var : string) (bins : Z)
    (x : string) : result (Dataset * DataArray) :=
  if binned then select_and_coarsen fs var bins x
  else select_variable fs var x.

(** The five global attributes of a dataset. *)
Definition copy_global_attrs (ds : Dataset) : result (gmap string string) :=
  a1 ←r getitem (ds_attrs ds) "creator_name";
  a2 ←r getitem (ds_attrs ds) "creator_url";
  a3 ←r getitem (ds_attrs ds) "license";
  a4 ←r getitem (ds_attrs ds) "sensor";
  a5 ←r getitem (ds_attrs ds) "processing_level";
  Ok (<["processing_level" := a5]>
        (<["sensor" := a4]>
           (<["license" := a3]>
              (<["creator_url" := a2]> {[ "creator_name" := a1 ]})))).

(** Concatenation of the files [rest] onto [first], in the order of the
    list. *)
Definition concat_files (binned : bool) (fs : FS) (var : string) (bins : Z)
    (first : DataArray) (rest : list string) : result DataArray :=
  foldR (λ acc x, r ←r per_file binned fs var bins x; concat acc r.2 "time")
        first rest.

(** The whole sequence for the files [x0 :: rest]. *)
Definition merge_sequence (binned : bool) (binning : string)
    (out_dir : string) (raw_info : RawInfo) (bins : Z)
    (x0 : string) (rest : list string) : M (string * string) :=
  let var := ri_name raw_info in
  r0 ←m readM (λ fs, per_file binned fs var bins x0);
  meta ←m liftR (copy_global_attrs r0.1);
  da ←m readM (λ fs, concat_files binned fs var bins r0.2 rest);
  let path := os_path_join out_dir (ri_file raw_info +:+ "_merged.nc") in
  _ ←m to_netcdf {| ds_vars := {[ var := da ]};
                    ds_attrs := <["BINNING" := binning]> meta |}
         path (merge_encoding var) ["time"];
  retM (path, binning).

(** *** [extract_variable] and [cmorization] in the words of the
    specification *)

(** The five fixes, in their order. *)
Definition cmorize_cube (var_info : VarInfo) (var : string)
    (attrs : gmap string string) (cube : Cube) : result Cube :=
  cube ←r fix_var_metadata cube var_info;
  cube ←r fix_coords cube;
  cube ←r _add_depth_coord cube;
  cube ←r _fix_data cube var;
  set_global_atts cube attrs.

(** Saving a list of cubes, one after the other. *)
Definition save_cubes (var out_dir : string) (attrs : gmap string string)
    (cubes : list Cube) : M unit :=
  foldM (λ _ cube,
           save_variable cube var out_dir attrs ["coordinates"] ["time"])
        () cubes.

(** Of the cubes [after], those at the positions where the cube of
    [before] has the variable name [rawvar]. *)
Definition matching_cubes (rawvar : string) (before after : list Cube)
  : list Cube :=
  (filter (λ p, var_name (cube_metadata p.1) = Some rawvar)
          (zip before after)).*2.

(** The path of the merged file of a variable. *)
Definition merged_path (out_dir : string) (vals : VarCfg) : string :=
  os_path_join out_dir (vc_file vals +:+ "_merged.nc").

(** The attribute whose deletion fails first (lines 97-100), for
    attributes that lack one of the three. *)
Definition first_missing_attr (attrs : gmap string string) : string :=
  match attrs !! "grid_mapping" with
  | None => "grid_mapping"
  | Some _ =>
    match attrs !! "ancillary_variables" with
    | None => "ancillary_variables"
    | Some _ => "parameter_vocab_uri"
    end
  end.

End Cmorizer.

(** ** The fix registry *)

Module Fixes.

(** Modelled from the spec: [esmvalcore.cmor.fix] and the modules under
    [esmvalcore.cmor._fixes.cmip5] are not among the sources, only their
    tests are.  The specification describes a registry lookup that matches
    dataset, model and variable names to small arithmetic corrections.
    The tests import [Ch4] and [Co2] from the module [cmip5.fio_esm], and
    [AllVars] and [O2] from [cmip5.hadgem2_cc], and ask for them under the
    names ['CMIP5'], ['FIO-ESM'], ['HADGEM2-CC']: a module is found under
    the project and model names in lower case with ['_'] for ['-'], holds
    one fix class per variable name, and may hold a class [AllVars] that
    applies to every variable and comes first.  Two instances of a fix
    class are equal, so an instance is represented by its class. *)
Inductive Fix : Type :=
| Ch4
| Co2
| AllVars
| O2.

Definition lower_char (c : ascii) : ascii :=
  let n := nat_of_ascii c in
  if ((65 <=? n) && (n <=? 90))%nat then ascii_of_nat (n + 32) else c.

(** [s.lower()] on ASCII letters. *)
Fixpoint lower (s : string) : string :=
  match s with
  | "" => ""
  | String c rest => String (lower_char c) (lower rest)
  end.

(** [s.replace('-', '_')]. *)
Fixpoint dash_to_underscore (s : string) : string :=
  match s with
  | "" => ""
  | String c rest =>
    String (if bool_decide (c = "-"%char) then "_"%char else c)
           (dash_to_underscore rest)
  end.

Definition module_name (s : string) : string :=
  lower (dash_to_underscore s).

(** Modelled from the spec: the registry, which is the fix modules that
    are installed: by the names of the project and of the module, the fix
    classes of the module by their names in lower case. *)
Definition Registry : Type := gmap (string * string) (gmap string Fix).

(** The import of a fix module; an [ImportError] is [None]. *)
Definition find_module (modules : Registry) (project model : string)
  : option (gmap string Fix) :=
  modules !! (project, model).

(** Modelled from the spec: [Fix.get_fixes(project, model, variable)], the
    registry lookup.  The three names are normalised; a module that is
    not installed gives no fix; of the names [allvars] and [variable], in
    this order, each one that is a class of the module adds an instance
    of the class to the list. *)
Definition get_fixes (modules : Registry) (project model variable : string)
  : list Fix :=
  let project := module_name project in
  let model := module_name model in
  let variable := module_name variable in
  match find_module modules project model with
  | None => []
  | Some classes =>
    foldl (λ fixes fix_name,
             match getitem classes fix_name with
             | Ok class => (fixes ++ [class])%list
             | Raise _ => fixes
             end)
          [] ["allvars"; variable]
  end.

(** Modelled from the spec: the two modules that the tests import, with
    the classes that the tests import from them. *)
Definition registry : Registry :=
  {[ ("cmip5", "fio_esm") := {[ "ch4" := Ch4; "co2" := Co2 ]};
     ("cmip5", "hadgem2_cc") := {[ "allvars" := AllVars; "o2" := O2 ]} ]}.





End Fixes.

(** ** A small world to run the cmorizer in

    Arrays are symbolic: an array is the history of the xarray calls that
    built it.  The directory [raw] holds monthly files whose names start
    with [chl-] and [kd-]; the cmorized files go to [out]. *)

Module Scenario.

Inductive SymArr : Type :=
| Raw (tag : string)
| Reversed (a : SymArr)
| Coarsened (dim : string) (bins : Z) (a : SymArr)
| Joined (a b : SymArr) (dim : string).

(** An iris that clears the names, the attributes and the cell methods of
    a cube in place, and a numpy that rounds the factor to [float32]
    before it multiplies. *)
#[export] Instance sym_maths : IrisMaths := {|
  maths_metadata m :=
    {| standard_name := None; long_name := None; var_name := None;
       units := units m; attributes := ∅; cell_methods := [] |};
  maths_attributes _ := ∅;
  mul_float32 v k := SFmul 24 128 v (float32_of_float k);
|}.

#[export] Instance sym_xarray : Xarray SymArr := {|
  sel_lat_reversed a := Ok (Reversed a);
  coarsen_mean dim bins da :=
    if 0 <? bins
    then Ok {| da_values := Coarsened dim bins (da_values da);
               da_attrs := da_attrs da |}
    else Raise (ValueError "window must be > 0");
  concat a b dim :=
    Ok {| da_values := Joined (da_values a) (da_values b) dim;
          da_attrs := da_attrs a |};
|}.

Fixpoint suffixes (s : string) : list string :=
  s :: match s with
       | "" => []
       | String _ rest => suffixes rest
       end.

(** Matching of a path against a pattern in which ['*'] stands for any
    run of characters. *)
Fixpoint wild (pat path : string) : bool :=
  match pat with
  | "" => bool_decide (path = "")
  | String c pat' =>
    if bool_decide (c = "*"%char)
    then existsb (wild pat') (suffixes path)
    else match path with
         | "" => false
         | String d path' => bool_decide (c = d) && wild pat' path'
         end
  end.

(** A file system that lists the entries [extra], which are not readable
    netCDF files, and the netCDF files of the store, in the order that
    [order] puts them in. *)
Definition listing (order : list string → list string)
    (extra : list string) : FileSystem SymArr := {|
  glob fs pat :=
    filter (λ path, wild pat path)
           (order (extra ++ (map_to_list fs).*1)%list);
  can_write _ := true;
|}.

Definition var_attrs : gmap string string :=
  <["grid_mapping" := "crs"]>
    (<["ancillary_variables" := "chlor_a_log10_rmsd"]>
       (<["parameter_vocab_uri" := "http://vocab.ndg.nerc.ac.uk"]>
          {[ "units" := "milligram m-3" ]})).

Definition global_attrs : gmap string string :=
  <["creator_name" := "Plymouth Marine Laboratory"]>
    (<["creator_url" := "http://esa-oceancolour-cci.org"]>
       (<["license" := "ESA CCI Data Policy: free and open access"]>
          (<["sensor" := "MERIS,MODIS,SeaWiFS,VIIRS"]>
             (<["processing_level" := "Level-3"]>
                {[ "title" := "ESA CCI Ocean Colour Product" ]})))).

(** A raw monthly file with the variables [names]. *)
Definition raw_file (attrs : gmap string string) (names : list string)
    (month : string) : NcFile SymArr :=
  {| nc_dataset :=
       {| ds_vars :=
            list_to_map
              ((λ n, (n, {| da_values := Raw (n +:+ "@" +:+ month);
                            da_attrs := attrs |})) <$> names);
          ds_attrs := global_attrs |};
     nc_encoding := ∅;
     nc_unlimited_dims := [] |}.

Definition store : FS SymArr :=
  <["raw/chl-201001.nc" :=
      raw_file var_attrs ["chlor_a"; "chlor_a_log10_rmsd"] "201001"]>
    (<["raw/chl-201002.nc" :=
         raw_file var_attrs ["chlor_a"; "chlor_a_log10_rmsd"] "201002"]>
       {[ "raw/kd-201001.nc" := raw_file var_attrs ["kd_490"] "201001" ]}).

(** The same store, but the variables of the second [chl] file have lost
    the attribute [ancillary_variables]. *)
Definition store_missing : FS SymArr :=
  <["raw/chl-201002.nc" :=
      raw_file (delete "ancillary_variables" var_attrs)
        ["chlor_a"; "chlor_a_log10_rmsd"] "201002"]> store.

Definition cube_of (item : string * DataArray SymArr) : Cube :=
  {| cube_metadata :=
       {| standard_name := None; long_name := None;
          var_name := Some item.1;
          units := default "1" (da_attrs item.2 !! "units");
          attributes := da_attrs item.2; cell_methods := [] |};
     cube_data := Float32 (float32_of_float <$> [1%float; 2%float]);
     cube_dim_coords := [];
     cube_aux_coords := [];
     cube_coordinates := None |}.

Definition file_of (var : string) (cube : Cube) : NcFile SymArr :=
  {| nc_dataset :=
       {| ds_vars := {[ var := {| da_values := Raw var;
                                  da_attrs := ∅ |} ]};
          ds_attrs := attributes (cube_metadata cube) |};
     nc_encoding := ∅;
     nc_unlimited_dims := [] |}.

#[export] Instance sym_utilities : Utilities SymArr string := {|
  short_name v := Ok v;
  get_variable mip var := Ok var;
  iris_load fs path :=
    match fs !! path with
    | Some f => Ok (cube_of <$> map_to_list (ds_vars (nc_dataset f)))
    | None => Raise (OSError path)
    end;
  fix_var_metadata cube v :=
    let m := cube_metadata cube in
    Ok (set_metadata cube
          {| standard_name := standard_name m; long_name := long_name m;
             var_name := Some v; units := units m;
             attributes := attributes m; cell_methods := cell_methods m |});
  fix_coords cube := Ok cube;
  set_global_atts cube attrs :=
    let m := cube_metadata cube in
    Ok (set_metadata cube
          {| standard_name := standard_name m; long_name := long_name m;
             var_name := var_name m; units := units m;
             attributes := attrs; cell_methods := cell_methods m |});
  save_variable cube var out_dir attrs local_keys unlimited := λ fs,
    (Ok (), <[out_dir +:+ "/OBS_" +:+ var +:+ ".nc" := file_of var cube]> fs);
|}.

Definition attrs : gmap string string :=
  <["tier" := "2"]>
    (<["dataset_id" := "ESACCI-OC"]> {[ "comment" := "" ]}).

(** Two variables from files of their own. *)
Definition cfg_two : Config :=
  {| cfg_attributes := attrs;
     cfg_variables :=
       [ ("chl", {| vc_mip := "Omon"; vc_raw := "chlor_a";
                    vc_file := "chl" |});
         ("kd", {| vc_mip := "Omon"; vc_raw := "kd_490";
                   vc_file := "kd" |}) ];
     cfg_bin_size := 2 |}.

(** Two variables that are read from the same raw files. *)
Definition cfg_shared : Config :=
  {| cfg_attributes := attrs;
     cfg_variables :=
       [ ("chl", {| vc_mip := "Omon"; vc_raw := "chlor_a";
                    vc_file := "chl" |});
         ("chlrmsd", {| vc_mip := "Omon"; vc_raw := "chlor_a_log10_rmsd";
                        vc_file := "chl" |}) ];
     cfg_bin_size := 2 |}.

Definition chl : RawInfo := {| ri_name := "chlor_a"; ri_file := "chl" |}.

(** The value that a call returned, or [d] if it raised. *)
Definition returned {A} (r : result A) (d : A) : A :=
  match r with
  | Ok a => a
  | Raise _ => d
  end.

(** The variable [chlor_a] of one raw file. *)
Definition raw_chl : RawInfo :=
  {| ri_name := "chlor_a"; ri_file := "raw/chl-201001.nc" |}.

(** [extract_variable] on that file. *)
Definition run_extract : result (list Cube) * FS SymArr :=
  @extract_variable _ _ _ sym_utilities "chl" raw_chl "out" attrs store.

(** [cmorization] with the configuration [cfg]. *)
Definition run_cmorization (cfg : Config)
  : result (gmap string string) * FS SymArr :=
  @cmorization _ _ _ _ (listing id []) _ cfg "raw" "out" store.

(** A variable for which the directory holds no file. *)
Definition absent : RawInfo := {| ri_name := "chlor_a"; ri_file := "sst" |}.

(** A raw variable name that no cube of the raw file has. *)
Definition raw_sst : RawInfo :=
  {| ri_name := "sst"; ri_file := "raw/chl-201001.nc" |}.

(** A configuration whose attributes lack [comment]. *)
Definition cfg_no_comment : Config :=
  {| cfg_attributes := delete "comment" attrs;
     cfg_variables :=
       [ ("chl", {| vc_mip := "Omon"; vc_raw := "chlor_a";
                    vc_file := "chl" |}) ];
     cfg_bin_size := 2 |}.

(** Two variables, the second of which has no raw file. *)
Definition cfg_second_fails : Config :=
  {| cfg_attributes := attrs;
     cfg_variables :=
       [ ("chl", {| vc_mip := "Omon"; vc_raw := "chlor_a";
                    vc_file := "chl" |});
         ("tos", {| vc_mip := "Omon"; vc_raw := "sst";
                    vc_file := "sst" |}) ];
     cfg_bin_size := 2 |}.

(** The loop of [cmorization] on the first variable of that
    configuration. *)
Definition run_first_variable : result cmor_locals * FS SymArr :=
  foldM (@cmorization_body _ _ _ _ (listing id []) _ cfg_second_fails
           "raw" "out")
    {| l_glob_attrs := attrs; l_inpfile := None |}
    [("chl", {| vc_mip := "Omon"; vc_raw := "chlor_a"; vc_file := "chl" |})]
    store.

(** The store with another [kd] file, which the pattern of [chl] does not
    match. *)
Definition store_other : FS SymArr :=
  <["raw/kd-201001.nc" := raw_file var_attrs ["kd_490"; "kd_par"] "201001"]>
    store.


(** The file that [merge_data] writes for [chl] with bins of two cells. *)
Definition merged_chl : NcFile SymArr :=
  {| nc_dataset :=
       {| ds_vars :=
            {[ "chlor_a" :=
                 {| da_values :=
                      Joined
                        (Coarsened "lon" 2
                           (Coarsened "lat" 2
                              (Reversed (Raw "chlor_a@201001"))))
                        (Coarsened "lon" 2
                           (Coarsened "lat" 2
                              (Reversed (Raw "chlor_a@201002"))))
                        "time";
                    da_attrs := {[ "units" := "milligram m-3" ]} |} ]};
          ds_attrs :=
            <["BINNING" := "Data binned using  2 by 2 cells average"]>
              (delete "title" global_attrs) |};
     nc_encoding := merge_encoding "chlor_a";
     nc_unlimited_dims := ["time"] |}.

(** The same file without binning. *)
Definition merged_chl_unbinned : NcFile SymArr :=
  {| nc_dataset :=
       {| ds_vars :=
            {[ "chlor_a" :=
                 {| da_values :=
                      Joined (Reversed (Raw "chlor_a@201001"))
                             (Reversed (Raw "chlor_a@201002")) "time";
                    da_attrs := {[ "units" := "milligram m-3" ]} |} ]};
          ds_attrs := <["BINNING" := ""]> (delete "title" global_attrs) |};
     nc_encoding := merge_encoding "chlor_a";
     nc_unlimited_dims := ["time"] |}.

End Scenario.

(** * Properties *)

(** ** Cubes *)

Lemma coord_name_of_defn (c c' : Coord) :
  coord_defn c = coord_defn c' → coord_name c = coord_name c'.
Proof. unfold coord_name. by intros ->. Qed.

Lemma add_depth_coord_never_raises (cube : Cube) :
  cube_coords cube "depth" = [] →
  add_aux_coord cube depth_coord =
    Ok {| cube_metadata := cube_metadata cube;
          cube_data := cube_data cube;
          cube_dim_coords := cube_dim_coords cube;
          cube_aux_coords := (cube_aux_coords cube ++ [(depth_coord, [])])%list;
          cube_coordinates := cube_coordinates cube |}.
Proof.
  intros Hnone. unfold add_aux_coord.
  rewrite bool_decide_eq_false_2; [done|].
  intros (c & Hc & Hdefn)%Exists_exists.
  assert (c ∈ cube_coords cube "depth") as Hin.
  { apply list_elem_of_filter. split; [|done].
    by rewrite (coord_name_of_defn _ _ Hdefn). }
  rewrite Hnone in Hin. by apply not_elem_of_nil in Hin.
Qed.

Lemma cube_coords_after_depth (cube : Cube) (coords : list (Coord * list nat)) :
  cube_aux_coords cube = (coords ++ [(depth_coord, [])])%list →
  cube_coords cube "depth" ≠ [].
Proof.
  intros Haux Hnil.
  assert (depth_coord ∈ cube_coords cube "depth") as Hin.
  { apply list_elem_of_filter. split; [done|].
    unfold cube_all_coords. rewrite Haux, fmap_app.
    apply elem_of_app. right. apply elem_of_app. right. by left. }
  rewrite Hnil in Hin. by apply not_elem_of_nil in Hin.
Qed.

(** C6: [_add_depth_coord] never raises; it adds the scalar auxiliary
    coordinate [depth] (value 1, units [m], attribute [positive = down])
    and sets [cube.coordinates] exactly when [cube.coords('depth')] is
    empty, and leaves the cube as it is otherwise; applying it twice gives
    the same cube as applying it once. *)
Theorem add_depth_coord_exactly_once (cube : Cube) :
  _add_depth_coord cube =
    Ok (if bool_decide (cube_coords cube "depth" = [])
        then {| cube_metadata := cube_metadata cube;
                cube_data := cube_data cube;
                cube_dim_coords := cube_dim_coords cube;
                cube_aux_coords :=
                  (cube_aux_coords cube ++ [(depth_coord, [])])%list;
                cube_coordinates := Some "depth" |}
        else cube)
  ∧ (cube' ←r _add_depth_coord cube; _add_depth_coord cube')
    = _add_depth_coord cube
  ∧ coord_name depth_coord = "depth"
  ∧ coord_points depth_coord = [1%float]
  ∧ coord_units (coord_defn depth_coord) = "m"
  ∧ coord_attributes (coord_defn depth_coord) = {[ "positive" := "down" ]}.
Proof.
  assert (_add_depth_coord cube =
    Ok (if bool_decide (cube_coords cube "depth" = [])
        then {| cube_metadata := cube_metadata cube;
                cube_data := cube_data cube;
                cube_dim_coords := cube_dim_coords cube;
                cube_aux_coords :=
                  (cube_aux_coords cube ++ [(depth_coord, [])])%list;
                cube_coordinates := Some "depth" |}
        else cube)) as Hfirst.
  { unfold _add_depth_coord. case_bool_decide as Hdepth.
    - rewrite Hdepth. by rewrite add_depth_coord_never_raises.
    - by destruct (cube_coords cube "depth"). }
  split; [exact Hfirst|]. split; [|done].
  rewrite Hfirst. simpl. case_bool_decide as Hdepth.
  - unfold _add_depth_coord at 1.
    match goal with
    | |- match cube_coords ?c _ with _ => _ end = _ =>
      pose proof (cube_coords_after_depth c (cube_aux_coords cube) eq_refl)
        as Hsome;
      destruct (cube_coords c "depth"); [done|]
    end.
    done.
  - unfold _add_depth_coord. by destruct (cube_coords cube "depth").
Qed.


(** ** The fix registry *)

Lemma module_name_idemp (s : string) :
  Fixes.module_name (Fixes.module_name s) = Fixes.module_name s.
Proof.
  unfold Fixes.module_name. induction s as [|c s IH]; [done|].
  cbn [Fixes.dash_to_underscore Fixes.lower]. rewrite IH. f_equal.
  destruct c as [[] [] [] [] [] [] [] []]; vm_compute; reflexivity.
Qed.

(** C2: [Fix.get_fixes] maps a name triple to exactly the fixes that are
    registered for it.  Whatever the registry holds, the lookup finds the
    module under the normalised names of the project and the model; a
    module that is not registered gives no fix; otherwise the list is the
    class [allvars] of that module, if it has one, followed by the class
    of the normalised variable name, if it has one, and nothing else; the
    lookup gives the same for names that differ in case or in ['-'] for
    ['_'] only.  With the two modules of the tests registered, the four
    name triples of the tests give the four lists of the tests. *)
Theorem get_fixes_of_the_tests (modules : Fixes.Registry)
    (fio_esm hadgem2_cc : gmap string Fixes.Fix) :
  modules !! ("cmip5", "fio_esm") = Some fio_esm →
  modules !! ("cmip5", "hadgem2_cc") = Some hadgem2_cc →
  fio_esm !! "allvars" = None →
  fio_esm !! "ch4" = Some Fixes.Ch4 →
  fio_esm !! "co2" = Some Fixes.Co2 →
  hadgem2_cc !! "allvars" = Some Fixes.AllVars →
  hadgem2_cc !! "tas" = None →
  hadgem2_cc !! "o2" = Some Fixes.O2 →
  (∀ project model variable,
     Fixes.get_fixes modules project model variable =
       match modules !! (Fixes.module_name project,
                         Fixes.module_name model) with
       | None => []
       | Some classes =>
         (option_list (classes !! "allvars")
            ++ option_list (classes !! Fixes.module_name variable))%list
       end)
  ∧ (∀ project model variable,
       Fixes.get_fixes modules (Fixes.module_name project)
         (Fixes.module_name model) (Fixes.module_name variable)
       = Fixes.get_fixes modules project model variable)
  ∧ Fixes.get_fixes modules "CMIP5" "FIO-ESM" "ch4" = [Fixes.Ch4]
  ∧ Fixes.get_fixes modules "CMIP5" "FIO-ESM" "co2" = [Fixes.Co2]
  ∧ Fixes.get_fixes modules "CMIP5" "HADGEM2-CC" "tas" = [Fixes.AllVars]
  ∧ Fixes.get_fixes modules "CMIP5" "HADGEM2-CC" "o2"
    = [Fixes.AllVars; Fixes.O2].
Proof.
  intros Hfio Hhad Hfio_all Hch4 Hco2 Hhad_all Htas Ho2.
  assert (∀ project model variable,
     Fixes.get_fixes modules project model variable =
       match modules !! (Fixes.module_name project,
                         Fixes.module_name model) with
       | None => []
       | Some classes =>
         (option_list (classes !! "allvars")
            ++ option_list (classes !! Fixes.module_name variable))%list
       end) as Hlookup.
  { clear. intros project model variable.
    unfold Fixes.get_fixes, Fixes.find_module, getitem. cbn zeta.
    destruct (modules !! _) as [classes|]; [|done]. cbn [foldl].
    destruct (classes !! "allvars");
      by destruct (classes !! Fixes.module_name variable). }
  split; [exact Hlookup|]. split.
  { intros project model variable.
    by rewrite !Hlookup, !module_name_idemp. }
  rewrite !Hlookup.
  change (Fixes.module_name "CMIP5") with "cmip5".
  change (Fixes.module_name "FIO-ESM") with "fio_esm".
  change (Fixes.module_name "HADGEM2-CC") with "hadgem2_cc".
  rewrite Hfio, Hhad.
  change (Fixes.module_name "ch4") with "ch4".
  change (Fixes.module_name "co2") with "co2".
  change (Fixes.module_name "tas") with "tas".
  change (Fixes.module_name "o2") with "o2".
  by rewrite Hfio_all, Hch4, Hco2, Hhad_all, Htas, Ho2.
Qed.


(** ** Loops *)

Lemma foldR_app {S X} (body : S → X → result S) (st : S) (xs ys : list X) :
  foldR body st (xs ++ ys) = (st' ←r foldR body st xs; foldR body st' ys).
Proof.
  revert st. induction xs as [|x xs IH]; intros st; cbn; [done|].
  destruct (body st x); cbn; [apply IH|done].
Qed.

(** ** Sorting of paths *)

Lemma sorted_Permutation (paths : list string) : sorted paths ≡ₚ paths.
Proof. apply merge_sort_Permutation. Qed.

Lemma sorted_Sorted (paths : list string) : Sorted String.le (sorted paths).
Proof. apply (Sorted_merge_sort String.le). Qed.

Lemma sorted_of_Permutation (l1 l2 : list string) :
  l1 ≡ₚ l2 → sorted l1 = sorted l2.
Proof.
  intros Hperm. apply (Sorted_unique String.le); [apply sorted_Sorted..|].
  by rewrite !sorted_Permutation.
Qed.

Lemma sorted_NoDup (paths : list string) : NoDup paths → NoDup (sorted paths).
Proof. by rewrite sorted_Permutation. Qed.

(** The merged file lies directly under [out_dir] unless the file name of
    the configuration starts with the separator. *)
Lemma merged_file_under_out_dir (out_dir file : string) :
  String.prefix "/" file = false →
  out_dir ≠ "" →
  ends_with_sep out_dir = false →
  os_path_join out_dir (file +:+ "_merged.nc")
    = out_dir +:+ "/" +:+ file +:+ "_merged.nc".
Proof.
  intros Hrel Hdir Hsep. unfold os_path_join.
  assert (String.prefix "/" (file +:+ "_merged.nc") = false) as ->.
  { destruct file as [|c file]; [done|].
    assert (∀ s, String.prefix "/" (String c s)
                 = if Ascii.ascii_dec "/" c then true else false) as Hhead.
    { intros s. cbn [String.prefix].
      destruct (Ascii.ascii_dec "/" c); [by destruct s|done]. }
    change (String c file +:+ "_merged.nc")
      with (String c (file +:+ "_merged.nc")).
    by rewrite Hhead in Hrel |- *. }
  by rewrite bool_decide_eq_false_2, Hsep.
Qed.

(** ** [merge_data] *)

Section MergeData.

Context {Arr : Type} `{Xarray Arr, FileSystem Arr}.

Implicit Types (fs : FS Arr) (da acc : DataArray Arr) (x var : string).

Lemma do_bin_of_spec (bins : Z) :
  do_bin_of bins = true ↔ Z.Even bins ∧ bins ≠ 0.
Proof.
  unfold do_bin_of. rewrite andb_true_iff, negb_true_iff.
  rewrite Z.eqb_eq, Z.eqb_neq, Z.mod_divide by lia.
  rewrite <- Z.even_spec. unfold Z.divide.
  split; intros [Heven ?]; (split; [|done]).
  - destruct Heven as [k ->]. by rewrite Z.mul_comm, Z.even_mul.
  - apply Z.even_spec in Heven as [k ->]. exists k. lia.
Qed.

Lemma do_bin_of_false (bins : Z) :
  do_bin_of bins = false ↔ Z.Odd bins ∨ bins = 0.
Proof.
  rewrite <- not_true_iff_false, do_bin_of_spec.
  destruct (Z.Even_or_Odd bins) as [Heven|Hodd]; split.
  - intros Hno. right. destruct (decide (bins = 0)); [done|]. by destruct Hno.
  - intros [Hodd| ->] [? ?]; [|done].
    by apply (Z.Even_Odd_False bins).
  - by left.
  - intros _ [Heven _]. by apply (Z.Even_Odd_False bins).
Qed.

Lemma binning_text_binned (bins : Z) :
  binning_text true bins =
    "Data binned using  " +:+ format_int bins +:+ " by " +:+
    format_int bins +:+ " cells average".
Proof.
  unfold binning_text. cbv [str_join String.append].
  fold String.append. repeat f_equal.
Qed.

(** The first iteration of the loop. *)
Lemma merge_body_first fs var (binned : bool) (bins : Z) x rest st :
  merge_body fs var binned bins (x :: rest) st x =
    (r ←r per_file binned fs var bins x;
     meta ←r copy_global_attrs r.1;
     Ok {| newda := Some r.2;
           dsmeta := Some (<["BINNING" := binning_text binned bins]> meta) |}).
Proof.
  unfold merge_body, per_file, select_and_coarsen, select_variable,
    coarsen_lat_lon, copy_global_attrs.
  rewrite bool_decide_eq_true_2 by done. cbn [foldR].
  destruct (open_dataset fs x) as [ds|]; cbn; [|by destruct binned].
  destruct (getitem (ds_vars ds) var) as [da|]; cbn; [|by destruct binned].
  destruct (sel_lat da) as [da1|]; cbn; [|by destruct binned].
  destruct (del_attr da1 _) as [da2|]; cbn; [|by destruct binned].
  destruct (del_attr da2 _) as [da3|]; cbn; [|by destruct binned].
  destruct (del_attr da3 _) as [da4|]; cbn; [|by destruct binned].
  destruct binned; cbn.
  - destruct (coarsen_mean "lat" bins da4) as [da5|]; cbn; [|done].
    destruct (coarsen_mean "lon" bins da5) as [da6|]; cbn; [|done].
    by repeat (destruct (getitem (ds_attrs ds) _); cbn; [|done]).
  - by repeat (destruct (getitem (ds_attrs ds) _); cbn; [|done]).
Qed.

(** A later iteration of the loop: the path is not the first one. *)
Lemma merge_body_later fs var (binned : bool) (bins : Z) x0 x rest acc meta :
  x ≠ x0 →
  merge_body fs var binned bins (x0 :: rest)
    {| newda := Some acc; dsmeta := meta |} x =
    (r ←r per_file binned fs var bins x;
     new ←r concat acc r.2 "time";
     Ok {| newda := Some new; dsmeta := meta |}).
Proof.
  intros Hne.
  unfold merge_body, per_file, select_and_coarsen, select_variable,
    coarsen_lat_lon.
  rewrite bool_decide_eq_false_2 by (cbn; congruence). cbn [foldR].
  destruct (open_dataset fs x) as [ds|]; cbn; [|by destruct binned].
  destruct (getitem (ds_vars ds) var) as [da|]; cbn; [|by destruct binned].
  destruct (sel_lat da) as [da1|]; cbn; [|by destruct binned].
  destruct (del_attr da1 _) as [da2|]; cbn; [|by destruct binned].
  destruct (del_attr da2 _) as [da3|]; cbn; [|by destruct binned].
  destruct (del_attr da3 _) as [da4|]; cbn; [|by destruct binned].
  destruct binned; cbn; [|done].
  destruct (coarsen_mean "lat" bins da4) as [da5|]; cbn; [|done].
  by destruct (coarsen_mean "lon" bins da5) as [da6|]; cbn.
Qed.

(** The iterations after the first concatenate the remaining files in the
    order of the list. *)
Lemma merge_loop_rest fs var (binned : bool) (bins : Z) x0 rest xs acc meta :
  x0 ∉ xs →
  foldR (merge_body fs var binned bins (x0 :: rest))
    {| newda := Some acc; dsmeta := meta |} xs =
    (da ←r concat_files binned fs var bins acc xs;
     Ok {| newda := Some da; dsmeta := meta |}).
Proof.
  revert acc. induction xs as [|x xs IH]; intros acc Hnotin; [done|].
  apply not_elem_of_cons in Hnotin as [Hne Hnotin].
  unfold concat_files. cbn [foldR].
  rewrite merge_body_later by done.
  destruct (per_file binned fs var bins x) as [r|]; cbn; [|done].
  destruct (concat acc r.2 "time") as [new|]; cbn; [|done].
  by rewrite IH.
Qed.

(** The whole of [merge_data] on the sorted files [x0 :: rest]. *)
Lemma merge_data_unfold (in_dir out_dir : string) (raw_info : RawInfo)
    (bins : Z) fs x0 rest :
  NoDup (glob fs (in_dir +:+ "/" +:+ ri_file raw_info +:+ "*.nc")) →
  sorted (glob fs (in_dir +:+ "/" +:+ ri_file raw_info +:+ "*.nc"))
    = x0 :: rest →
  merge_data in_dir out_dir raw_info bins fs =
    merge_sequence (do_bin_of bins) (binning_text (do_bin_of bins) bins)
      out_dir raw_info bins x0 rest fs.
Proof.
  intros Hnodup%sorted_NoDup Hsorted. rewrite Hsorted in Hnodup.
  apply NoDup_cons in Hnodup as [Hnotin _].
  unfold merge_data, merge_sequence, bindM, readM, liftR, retM.
  rewrite Hsorted. cbn [foldR]. rewrite merge_body_first.
  destruct (per_file _ fs _ bins x0) as [r0|]; cbn; [|done].
  destruct (copy_global_attrs r0.1) as [meta|]; cbn; [|done].
  rewrite merge_loop_rest by done.
  destruct (concat_files _ fs _ bins r0.2 rest) as [da|]; cbn; [|done].
  unfold to_netcdf, merged_dataset. rewrite (right_id_L ∅ (∪)).
  destruct (can_write _); [|done].
  unfold getitem. by rewrite lookup_insert_eq.
Qed.

(** C1: on the sorted, non-empty list [x0 :: rest] of the files that the
    pattern matches, [merge_data] is the linear sequence: per file, open
    the dataset, select the variable with latitude reversed, delete the
    three attributes, coarsen over [lat] and [lon] when binning; copy the
    five global attributes of the first file and add [BINNING];
    concatenate the files along [time] in the order of the list; write
    the result to [os.path.join(out_dir, file + '_merged.nc')]; return
    that path and the [BINNING] string.  An exception raised on the way
    is raised by both sides at the same point. *)
Theorem merge_data_linear_sequence (in_dir out_dir : string)
    (raw_info : RawInfo) (bins : Z) fs x0 rest :
  NoDup (glob fs (in_dir +:+ "/" +:+ ri_file raw_info +:+ "*.nc")) →
  sorted (glob fs (in_dir +:+ "/" +:+ ri_file raw_info +:+ "*.nc"))
    = x0 :: rest →
  merge_data in_dir out_dir raw_info bins fs =
    (let var := ri_name raw_info in
     let binned := do_bin_of bins in
     let binning := binning_text binned bins in
     let path := os_path_join out_dir (ri_file raw_info +:+ "_merged.nc") in
     match per_file binned fs var bins x0 with
     | Raise e => (Raise e, fs)
     | Ok (ds0, da0) =>
       match copy_global_attrs ds0 with
       | Raise e => (Raise e, fs)
       | Ok meta =>
         match concat_files binned fs var bins da0 rest with
         | Raise e => (Raise e, fs)
         | Ok da =>
           if can_write path
           then (Ok (path, binning),
                 <[path := {| nc_dataset :=
                                {| ds_vars := {[ var := da ]};
                                   ds_attrs := <["BINNING" := binning]> meta |};
                              nc_encoding := merge_encoding var;
                              nc_unlimited_dims := ["time"] |}]> fs)
           else (Raise (OSError path), fs)
         end
       end
     end).
Proof.
  intros Hnodup Hsorted.
  rewrite (merge_data_unfold _ _ _ _ _ _ _ Hnodup Hsorted).
  unfold merge_sequence, bindM, readM, liftR, retM, to_netcdf. cbn zeta.
  destruct (per_file _ fs _ bins x0) as [[ds0 da0]|]; cbn; [|done].
  destruct (copy_global_attrs ds0) as [meta|]; cbn; [|done].
  destruct (concat_files _ fs _ bins da0 rest) as [da|]; cbn; [|done].
  by destruct (can_write _).
Qed.

(** Where binning applies and what it writes. *)
Lemma merge_data_binning_cases (in_dir out_dir : string)
    (raw_info : RawInfo) (bins : Z) fs x0 rest :
  NoDup (glob fs (in_dir +:+ "/" +:+ ri_file raw_info +:+ "*.nc")) →
  sorted (glob fs (in_dir +:+ "/" +:+ ri_file raw_info +:+ "*.nc"))
    = x0 :: rest →
  (Z.Even bins ∧ bins ≠ 0 →
   merge_data in_dir out_dir raw_info bins fs =
     merge_sequence true
       ("Data binned using  " +:+ format_int bins +:+ " by " +:+
        format_int bins +:+ " cells average")
       out_dir raw_info bins x0 rest fs)
  ∧ (Z.Odd bins ∨ bins = 0 →
     merge_data in_dir out_dir raw_info bins fs =
       merge_sequence false "" out_dir raw_info bins x0 rest fs).
Proof.
  intros Hnodup Hsorted.
  rewrite (merge_data_unfold _ _ _ _ _ _ _ Hnodup Hsorted).
  split.
  - intros ->%do_bin_of_spec. by rewrite binning_text_binned.
  - by intros ->%do_bin_of_false.
Qed.

(** C8: [merge_data] coarsens if and only if [bins] is even and not
    zero.  For such [bins] every file is coarsened by [bins] cells in
    [lat] and then in [lon], and the [BINNING] string that is written and
    returned is ['Data binned using  <bins> by <bins> cells average'];
    for an odd or zero [bins] no file is coarsened and the [BINNING]
    string is empty. *)
Theorem merge_data_bins_iff_even_nonzero (in_dir out_dir : string)
    (raw_info : RawInfo) (bins : Z) fs x0 rest :
  NoDup (glob fs (in_dir +:+ "/" +:+ ri_file raw_info +:+ "*.nc")) →
  sorted (glob fs (in_dir +:+ "/" +:+ ri_file raw_info +:+ "*.nc"))
    = x0 :: rest →
  (do_bin_of bins = true ↔ Z.Even bins ∧ bins ≠ 0)
  ∧ (Z.Even bins ∧ bins ≠ 0 →
     merge_data in_dir out_dir raw_info bins fs =
       merge_sequence true
         ("Data binned using  " +:+ format_int bins +:+ " by " +:+
          format_int bins +:+ " cells average")
         out_dir raw_info bins x0 rest fs)
  ∧ (Z.Odd bins ∨ bins = 0 →
     merge_data in_dir out_dir raw_info bins fs =
       merge_sequence false "" out_dir raw_info bins x0 rest fs)
  ∧ (∀ path binning fs',
       merge_data in_dir out_dir raw_info bins fs = (Ok (path, binning), fs') →
       binning =
         if Z.even bins && negb (bins =? 0)
         then "Data binned using  " +:+ format_int bins +:+ " by " +:+
              format_int bins +:+ " cells average"
         else "")
  ∧ (∀ var x,
       per_file true fs var bins x =
         (r ←r select_variable fs var x;
          da ←r (da ←r coarsen_mean "lat" bins r.2;
                 coarsen_mean "lon" bins da);
          Ok (r.1, da)))
  ∧ (∀ var x, per_file false fs var bins x = select_variable fs var x).
Proof.
  intros Hnodup Hsorted.
  destruct (merge_data_binning_cases in_dir out_dir raw_info bins
              fs x0 rest Hnodup Hsorted) as [Heven Hodd].
  split; [apply do_bin_of_spec|]. do 2 (split; [done|]).
  split; [|done].
  intros path binning fs' Hok.
  destruct (do_bin_of bins) eqn:Hbin.
  - apply do_bin_of_spec in Hbin as Hcase. destruct Hcase as [Hev Hnz].
    apply Z.even_spec in Hev as Hev'. rewrite Hev'.
    apply Z.eqb_neq in Hnz as Hnz'. rewrite Hnz'. cbn [andb negb].
    rewrite (Heven (conj Hev Hnz)) in Hok. revert Hok.
    unfold merge_sequence, bindM, readM, liftR, retM, to_netcdf.
    repeat case_match; naive_solver.
  - apply do_bin_of_false in Hbin as Hcase.
    rewrite (Hodd Hcase) in Hok.
    assert (Z.even bins && negb (bins =? 0) = false) as ->.
    { destruct Hcase as [Hoddb| ->]; [|done].
      apply Z.odd_spec in Hoddb. rewrite <- Z.negb_odd, Hoddb. done. }
    revert Hok.
    unfold merge_sequence, bindM, readM, liftR, retM, to_netcdf.
    repeat case_match; naive_solver.
Qed.

(** Deleting the three attributes fails at the first one that is
    missing. *)
Lemma del_attrs_missing da (key : string) :
  key ∈ ["grid_mapping"; "ancillary_variables"; "parameter_vocab_uri"] →
  da_attrs da !! key = None →
  foldR del_attr da
    ["grid_mapping"; "ancillary_variables"; "parameter_vocab_uri"]
    = Raise (KeyError (first_missing_attr (da_attrs da))).
Proof.
  intros Hkey Hnone. unfold first_missing_attr. cbn [foldR].
  unfold del_attr at 1, delitem.
  destruct (da_attrs da !! "grid_mapping") eqn:H1; cbn; [|done].
  unfold del_attr at 1, delitem. cbn.
  rewrite lookup_delete_ne by done.
  destruct (da_attrs da !! "ancillary_variables") eqn:H2; cbn; [|done].
  unfold del_attr at 1, delitem. cbn.
  rewrite !lookup_delete_ne by done.
  destruct (da_attrs da !! "parameter_vocab_uri") eqn:H3; cbn; [|done].
  rewrite !elem_of_cons, elem_of_nil in Hkey.
  destruct Hkey as [->|[->|[->|[]]]]; congruence.
Qed.

(** The iteration on a file whose variable lacks one of the attributes. *)
Lemma merge_body_missing fs var (binned : bool) (bins : Z)
    (datafile : list string) st x (f : NcFile Arr) da (key : string) :
  fs !! x = Some f →
  ds_vars (nc_dataset f) !! var = Some da →
  key ∈ ["grid_mapping"; "ancillary_variables"; "parameter_vocab_uri"] →
  da_attrs da !! key = None →
  merge_body fs var binned bins datafile st x =
    (_ ←r sel_lat_reversed (da_values da);
     Raise (KeyError (first_missing_attr (da_attrs da)))).
Proof.
  intros Hfile Hvar Hkey Hnone.
  unfold merge_body, open_dataset, getitem. rewrite Hfile. cbn [bindR].
  cbn [nc_dataset]. rewrite Hvar. cbn [bindR]. unfold sel_lat.
  destruct (sel_lat_reversed (da_values da)) as [v|]; cbn [bindR]; [|done].
  by rewrite (del_attrs_missing _ key).
Qed.

(** C4, as amended: [merge_data] hands the first exception of its loop
    to its caller and writes nothing before the loop has ended.  When
    the variable of an input file lacks one of the three attributes,
    [merge_data] raises and the store is as it was; the exception is the
    [KeyError] of the first missing attribute when the files sorted
    before that file went through the loop without an exception and the
    selection of the reversed latitudes succeeded on it. *)
Theorem merge_data_missing_attribute (in_dir out_dir : string)
    (raw_info : RawInfo) (bins : Z) fs (pre suf : list string) x
    (f : NcFile Arr) da (key : string) :
  sorted (glob fs (in_dir +:+ "/" +:+ ri_file raw_info +:+ "*.nc"))
    = (pre ++ x :: suf)%list →
  fs !! x = Some f →
  ds_vars (nc_dataset f) !! ri_name raw_info = Some da →
  key ∈ ["grid_mapping"; "ancillary_variables"; "parameter_vocab_uri"] →
  da_attrs da !! key = None →
  (∃ e, merge_data in_dir out_dir raw_info bins fs = (Raise e, fs))
  ∧ (∀ st v,
       foldR (merge_body fs (ri_name raw_info) (do_bin_of bins) bins
                (pre ++ x :: suf)%list)
         {| newda := None; dsmeta := None |} pre = Ok st →
       sel_lat_reversed (da_values da) = Ok v →
       merge_data in_dir out_dir raw_info bins fs =
         (Raise (KeyError (first_missing_attr (da_attrs da))), fs)).
Proof.
  intros Hsorted Hfile Hvar Hkey Hnone.
  unfold merge_data, bindM, readM, liftR, retM. rewrite Hsorted.
  rewrite foldR_app. cbn [foldR].
  split.
  - destruct (foldR _ _ pre) as [st|e]; cbn; [|by exists e].
    rewrite (merge_body_missing _ _ _ _ _ _ _ f da key) by done.
    destruct (sel_lat_reversed (da_values da)) as [v|e]; cbn; by eexists.
  - intros st v -> Hsel. cbn.
    rewrite (merge_body_missing _ _ _ _ _ _ _ f da key) by done.
    by rewrite Hsel.
Qed.

End MergeData.

(** The order of the paths is the lexicographic order of their
    characters by code. *)
Lemma path_order_nil (s : string) : String.le "" s.
Proof. by destruct s. Qed.

Lemma path_order_cons (a b : ascii) (s t : string) :
  String.le (String a s) (String b t)
  ↔ (N_of_ascii a < N_of_ascii b)%N ∨ (a = b ∧ String.le s t).
Proof.
  unfold String.le, String.leb. cbn [String.compare].
  unfold Ascii.compare.
  destruct (N.compare_spec (N_of_ascii a) (N_of_ascii b)) as [Heq|Hlt|Hgt].
  - apply (f_equal ascii_of_N) in Heq.
    rewrite !ascii_N_embedding in Heq. subst b.
    split; [by right|]. intros [Hlt|[_ Hle]]; [lia|done].
  - split; [by left|done].
  - split; [done|]. intros [Hlt|[-> _]]; lia.
Qed.

(** C9: [merge_data] goes through the matched files, and concatenates
    them, in ascending lexicographic order of their paths, in whatever
    order the file system enumerates them.  For [files], the matched
    paths in ascending order, [merge_data] is the sequence that starts
    with the first of [files] and concatenates the others onto it along
    [time] in the order of [files]; with no matched path it raises the
    [NameError] of the unbound [newda].  On a file system that enumerates
    the same paths in another order it is the same sequence, so that the
    two runs return the same value or raise the same exception and leave
    the same store. *)
Theorem merge_data_enumeration_order {Arr : Type} `{Xarray Arr}
    (F : FileSystem Arr) (glob' : FS Arr → string → list string)
    (in_dir out_dir : string) (raw_info : RawInfo) (bins : Z)
    (fs : FS Arr) (files : list string) :
  NoDup (glob fs (in_dir +:+ "/" +:+ ri_file raw_info +:+ "*.nc")) →
  glob fs (in_dir +:+ "/" +:+ ri_file raw_info +:+ "*.nc")
    ≡ₚ glob' fs (in_dir +:+ "/" +:+ ri_file raw_info +:+ "*.nc") →
  files ≡ₚ glob fs (in_dir +:+ "/" +:+ ri_file raw_info +:+ "*.nc") →
  Sorted String.le files →
  let in_order :=
    match files with
    | [] => (Raise (NameError "newda"), fs)
    | x0 :: rest =>
      merge_sequence (do_bin_of bins) (binning_text (do_bin_of bins) bins)
        out_dir raw_info bins x0 rest fs
    end in
  @merge_data Arr _ F in_dir out_dir raw_info bins fs = in_order
  ∧ @merge_data Arr _ {| glob := glob'; can_write := can_write |}
      in_dir out_dir raw_info bins fs = in_order.
Proof.
  intros Hnodup Hperm Hfiles Hsorted in_order.
  assert (sorted (glob fs (in_dir +:+ "/" +:+ ri_file raw_info +:+ "*.nc"))
          = files) as Hfirst.
  { apply (Sorted_unique String.le); [apply sorted_Sorted|done|].
    by rewrite sorted_Permutation. }
  assert (sorted (glob' fs (in_dir +:+ "/" +:+ ri_file raw_info +:+ "*.nc"))
          = files) as Hsecond.
  { by rewrite <- (sorted_of_Permutation _ _ Hperm). }
  subst in_order. destruct files as [|x0 rest].
  - split; unfold merge_data, bindM, readM, liftR; cbn [glob];
      by rewrite ?Hfirst, ?Hsecond.
  - split.
    + by apply merge_data_unfold.
    + apply (@merge_data_unfold Arr _
               {| glob := glob'; can_write := can_write |}); cbn [glob];
        [by rewrite <- Hperm|done].
Qed.

(** ** [extract_variable] and [cmorization] *)

Section Cmorization.

Context {Arr VarInfo : Type}.
Context `{IrisMaths, Xarray Arr, FileSystem Arr, Utilities Arr VarInfo}.

Implicit Types (fs : FS Arr) (cube : Cube) (attrs : gmap string string).

Lemma foldM_app {S X} (body : S → X → M Arr S) (st : S) (xs ys : list X) fs :
  foldM body st (xs ++ ys) fs =
    bindM (foldM body st xs) (λ st', foldM body st' ys) fs.
Proof.
  revert st fs. induction xs as [|x xs IH]; intros st fs.
  - done.
  - cbn [foldM app]. unfold bindM.
    destruct (body st x fs) as [[st'|e] fs1]; [|done].
    rewrite IH. done.
Qed.

(** A loop hands on the exception of the iteration that raises, with the
    store as that iteration left it. *)
Lemma foldM_raises {S X} (body : S → X → M Arr S) (st st1 : S)
    (pre suf : list X) (x : X) fs fs1 fs2 (e : exn) :
  foldM body st pre fs = (Ok st1, fs1) →
  body st1 x fs1 = (Raise e, fs2) →
  foldM body st (pre ++ x :: suf) fs = (Raise e, fs2).
Proof.
  intros Hpre Hbody. rewrite foldM_app. unfold bindM at 1. rewrite Hpre.
  cbn [foldM]. unfold bindM. by rewrite Hbody.
Qed.

(** [extract_variable] catches nothing: an exception of an iteration of
    its loop is its own. *)
Lemma extract_variable_hands_on_exceptions (var_info : VarInfo)
    (raw_info : RawInfo) (out_dir var : string) attrs
    (pre suf done : list Cube) cube fs fs1 fs2 (e : exn) :
  short_name var_info = Ok var →
  iris_load fs (ri_file raw_info) = Ok (pre ++ cube :: suf)%list →
  foldM (extract_body var_info var (ri_name raw_info) out_dir attrs) [] pre fs
    = (Ok done, fs1) →
  extract_body var_info var (ri_name raw_info) out_dir attrs done cube fs1
    = (Raise e, fs2) →
  extract_variable var_info raw_info out_dir attrs fs = (Raise e, fs2).
Proof.
  intros Hname Hload Hpre Hbody.
  unfold extract_variable, bindM, liftR, readM. rewrite Hname, Hload.
  by apply (foldM_raises _ _ done _ _ _ _ fs1).
Qed.

(** [cmorization] catches nothing either: an exception of [merge_data]
    is the exception of the iteration, and an exception of an iteration is
    the exception of [cmorization]. *)
Lemma cmorization_body_hands_on_merge_data (CFG : Config)
    (in_dir out_dir : string) (st : cmor_locals) (item : string * VarCfg)
    (var_info : VarInfo) fs fs' (e : exn) :
  get_variable (vc_mip item.2) item.1 = Ok var_info →
  merge_data in_dir out_dir
    {| ri_name := vc_raw item.2; ri_file := vc_file item.2 |}
    (cfg_bin_size CFG) fs = (Raise e, fs') →
  cmorization_body CFG in_dir out_dir st item fs = (Raise e, fs').
Proof.
  intros Hvar Hmerge. unfold cmorization_body, bindM, liftR.
  rewrite Hvar. cbn [ri_name]. by rewrite Hmerge.
Qed.

Lemma cmorization_hands_on_exceptions (CFG : Config)
    (in_dir out_dir : string) (pre suf : list (string * VarCfg))
    (item : string * VarCfg) (st1 : cmor_locals) fs fs1 fs2 (e : exn) :
  is_Some (cfg_attributes CFG !! "tier") →
  is_Some (cfg_attributes CFG !! "dataset_id") →
  cfg_variables CFG = (pre ++ item :: suf)%list →
  foldM (cmorization_body CFG in_dir out_dir)
    {| l_glob_attrs := cfg_attributes CFG; l_inpfile := None |} pre fs
    = (Ok st1, fs1) →
  cmorization_body CFG in_dir out_dir st1 item fs1 = (Raise e, fs2) →
  cmorization CFG in_dir out_dir fs = (Raise e, fs2).
Proof.
  intros [tier Htier] [id Hid] Hvars Hpre Hbody.
  unfold cmorization, bindM, liftR, getitem. rewrite Htier, Hid, Hvars.
  by rewrite (foldM_raises _ _ st1 _ _ _ _ fs1 fs2 e Hpre Hbody).
Qed.

(** One iteration of the loop of [extract_variable] that returns. *)
Lemma extract_body_ok (var_info : VarInfo) (var rawvar out_dir : string)
    attrs (done done' : list Cube) cube fs fs' :
  extract_body var_info var rawvar out_dir attrs done cube fs
    = (Ok done', fs') →
  ∃ cube',
    done' = (done ++ [cube'])%list
    ∧ (if bool_decide (var_name (cube_metadata cube) = Some rawvar)
       then cmorize_cube var_info var attrs cube = Ok cube'
            ∧ save_variable cube' var out_dir attrs ["coordinates"] ["time"] fs
              = (Ok (), fs')
       else cube' = cube ∧ fs' = fs).
Proof.
  unfold extract_body, cmorize_cube, bindM, liftR, retM.
  case_bool_decide.
  - destruct (fix_var_metadata cube var_info) as [c1|]; cbn; [|done].
    destruct (fix_coords c1) as [c2|]; cbn; [|done].
    destruct (_add_depth_coord c2) as [c3|]; cbn; [|done].
    destruct (_fix_data c3 var) as [c4|]; cbn; [|done].
    destruct (set_global_atts c4 attrs) as [c5|]; cbn; [|done].
    destruct (save_variable c5 _ _ _ _ _ fs) as [[[]|] fs1] eqn:Hsave;
      [|done].
    intros [= <- <-]. by exists c5.
  - intros [= <- <-]. by exists cube.
Qed.

Lemma matching_cubes_cons (rawvar : string) cube cube'
    (before after : list Cube) :
  matching_cubes rawvar (cube :: before) (cube' :: after) =
    if bool_decide (var_name (cube_metadata cube) = Some rawvar)
    then cube' :: matching_cubes rawvar before after
    else matching_cubes rawvar before after.
Proof.
  unfold matching_cubes. cbn [zip zip_with]. rewrite filter_cons. cbn.
  case_bool_decide; by rewrite ?decide_True, ?decide_False by done.
Qed.

(** The loop of [extract_variable]. *)
Lemma extract_loop_ok (var_info : VarInfo) (var rawvar out_dir : string)
    attrs (cubes done done' : list Cube) fs fs' :
  foldM (extract_body var_info var rawvar out_dir attrs) done cubes fs
    = (Ok done', fs') →
  ∃ cubes',
    done' = (done ++ cubes')%list
    ∧ Forall2 (λ cube cube',
         if bool_decide (var_name (cube_metadata cube) = Some rawvar)
         then cmorize_cube var_info var attrs cube = Ok cube'
         else cube' = cube) cubes cubes'
    ∧ save_cubes var out_dir attrs (matching_cubes rawvar cubes cubes') fs
      = (Ok (), fs').
Proof.
  revert done fs. induction cubes as [|cube cubes IH]; intros done fs.
  - intros [= <- <-]. exists []. by rewrite app_nil_r.
  - cbn [foldM]. unfold bindM at 1.
    destruct (extract_body _ _ _ _ _ done cube fs) as [[done1|] fs1] eqn:Hbody;
      [|done].
    intros (cubes' & -> & Hall & Hsave)%IH.
    apply extract_body_ok in Hbody as (cube' & -> & Hcube).
    exists (cube' :: cubes'). rewrite <- app_assoc. split; [done|].
    rewrite matching_cubes_cons. case_bool_decide as Hname.
    + destruct Hcube as [Hfix Hsaved]. split.
      * constructor; [|done]. by rewrite bool_decide_eq_true_2.
      * unfold save_cubes. cbn [foldM]. unfold bindM. by rewrite Hsaved.
    + destruct Hcube as [-> ->]. split; [|done].
      constructor; [|done]. by rewrite bool_decide_eq_false_2.
Qed.

(** C7: when [extract_variable] returns, every loaded cube whose
    [var_name] is the raw variable name has gone through
    [fix_var_metadata], [fix_coords], [_add_depth_coord], [_fix_data] and
    [set_global_atts], in this order, every other cube is as it was
    loaded, and the store is the result of saving the cubes of the first
    kind, and only them, in the order in which they were loaded. *)
Theorem extract_variable_matching_cubes (var_info : VarInfo)
    (raw_info : RawInfo) (out_dir : string) attrs fs
    (var : string) (cubes cubes' : list Cube) fs' :
  short_name var_info = Ok var →
  iris_load fs (ri_file raw_info) = Ok cubes →
  extract_variable var_info raw_info out_dir attrs fs = (Ok cubes', fs') →
  Forall2 (λ cube cube',
     if bool_decide (var_name (cube_metadata cube) = Some (ri_name raw_info))
     then cmorize_cube var_info var attrs cube = Ok cube'
     else cube' = cube) cubes cubes'
  ∧ save_cubes var out_dir attrs
      (matching_cubes (ri_name raw_info) cubes cubes') fs
    = (Ok (), fs').
Proof.
  intros Hname Hload. unfold extract_variable, bindM, liftR, readM.
  rewrite Hname, Hload.
  by intros (? & -> & ? & ?)%extract_loop_ok.
Qed.

(** What [merge_data] has done when it returns. *)
Lemma merge_data_ok (in_dir out_dir : string) (raw_info : RawInfo)
    (bins : Z) fs (path binning : string) fs' :
  merge_data in_dir out_dir raw_info bins fs = (Ok (path, binning), fs') →
  path = os_path_join out_dir (ri_file raw_info +:+ "_merged.nc")
  ∧ ∃ nc, fs' = <[path := nc]> fs.
Proof.
  unfold merge_data, bindM, readM, liftR, retM, to_netcdf.
  destruct (foldR _ _ _) as [st|]; cbn; [|done].
  destruct (newda st) as [da|]; cbn; [|done].
  destruct (dsmeta st) as [meta|]; cbn; [|done].
  destruct (can_write _); [|done].
  destruct (getitem meta "BINNING"); cbn; [|done].
  intros [= <- <- <-]. eauto.
Qed.

Lemma foldM_keeps {S X} (body : S → X → M Arr S) (xs : list X) :
  (∀ st x fs r fs', body st x fs = (r, fs') → dom fs ⊆ dom fs') →
  ∀ st fs r fs', foldM body st xs fs = (r, fs') → dom fs ⊆ dom fs'.
Proof.
  intros Hbody. induction xs as [|x xs IH]; intros st fs r fs'.
  - by intros [= <- <-].
  - cbn [foldM]. unfold bindM.
    destruct (body st x fs) as [[st1|] fs1] eqn:Hstep.
    + intros Hrest%IH. apply Hbody in Hstep. by etrans.
    + intros [= <- <-]. by apply Hbody in Hstep.
Qed.

Section KeepsFiles.

(** [save_variable] writes files and removes none. *)
Hypothesis save_variable_keeps :
  ∀ cube (var out_dir : string) attrs (local_keys unlimited : list string)
    fs (r : result unit) fs',
    save_variable cube var out_dir attrs local_keys unlimited fs = (r, fs') →
    dom fs ⊆ dom fs'.

Lemma extract_body_keeps (var_info : VarInfo) (var rawvar out_dir : string)
    attrs (done : list Cube) cube fs (r : result (list Cube)) fs' :
  extract_body var_info var rawvar out_dir attrs done cube fs = (r, fs') →
  dom fs ⊆ dom fs'.
Proof using save_variable_keeps.
  unfold extract_body, bindM, liftR, retM.
  case_bool_decide; [|by intros [= <- <-]].
  destruct (fix_var_metadata cube var_info) as [c1|]; cbn;
    [|by intros [= <- <-]].
  destruct (fix_coords c1) as [c2|]; cbn; [|by intros [= <- <-]].
  destruct (_add_depth_coord c2) as [c3|]; cbn; [|by intros [= <- <-]].
  destruct (_fix_data c3 var) as [c4|]; cbn; [|by intros [= <- <-]].
  destruct (set_global_atts c4 attrs) as [c5|]; cbn; [|by intros [= <- <-]].
  destruct (save_variable c5 _ _ _ _ _ fs) as [[[]|] fs1] eqn:Hsave;
    intros [= <- <-]; by eapply save_variable_keeps.
Qed.

Lemma extract_variable_keeps (var_info : VarInfo) (raw_info : RawInfo)
    (out_dir : string) attrs fs (r : result (list Cube)) fs' :
  extract_variable var_info raw_info out_dir attrs fs = (r, fs') →
  dom fs ⊆ dom fs'.
Proof using save_variable_keeps.
  unfold extract_variable, bindM, liftR, readM.
  destruct (short_name var_info) as [var|]; [|by intros [= <- <-]].
  destruct (iris_load fs _) as [cubes|]; [|by intros [= <- <-]].
  apply foldM_keeps. intros ?????. apply extract_body_keeps.
Qed.

(** One iteration of the loop of [cmorization] that returns. *)
Lemma cmorization_body_ok (CFG : Config) (in_dir out_dir : string)
    (st st' : cmor_locals) (item : string * VarCfg) fs fs' :
  cmorization_body CFG in_dir out_dir st item fs = (Ok st', fs') →
  l_inpfile st' = Some (merged_path out_dir item.2)
  ∧ merged_path out_dir item.2 ∈ dom fs'
  ∧ dom fs ⊆ dom fs'.
Proof using save_variable_keeps.
  unfold cmorization_body, bindM, liftR, retM.
  destruct (get_variable _ _) as [var_info|]; [|done].
  destruct (merge_data _ _ _ _ fs) as [[[path binning]|] fs1] eqn:Hmerge;
    [|done].
  apply merge_data_ok in Hmerge as [-> [nc ->]]. cbn [fst snd ri_name].
  destruct (getitem _ "comment") as [comment|]; [|done].
  destruct (extract_variable var_info _ _ _ _) as [[cubes|] fs2] eqn:Hextract;
    [|done].
  apply extract_variable_keeps in Hextract.
  intros [= <- <-]. cbn. unfold merged_path.
  split; [done|]. split.
  - apply Hextract, elem_of_dom. rewrite lookup_insert_eq. by eexists.
  - etrans; [|exact Hextract]. rewrite dom_insert_L. apply union_subseteq_r.
Qed.

(** The loop of [cmorization]. *)
Lemma cmorization_loop_ok (CFG : Config) (in_dir out_dir : string)
    (items : list (string * VarCfg)) (st st' : cmor_locals) fs fs' :
  foldM (cmorization_body CFG in_dir out_dir) st items fs = (Ok st', fs') →
  dom fs ⊆ dom fs'
  ∧ (∀ item, item ∈ items → merged_path out_dir item.2 ∈ dom fs')
  ∧ (∀ item, last items = Some item →
       l_inpfile st' = Some (merged_path out_dir item.2)).
Proof using save_variable_keeps.
  revert st fs. induction items as [|item items IH]; intros st fs.
  - intros [= <- <-]. split; [done|]. split; [|done].
    intros ? []%elem_of_nil.
  - cbn [foldM]. unfold bindM.
    destruct (cmorization_body _ _ _ st item fs) as [[st1|] fs1] eqn:Hstep;
      [|done].
    apply cmorization_body_ok in Hstep as (Hlast & Hin & Hsub).
    intros Hrest. pose proof (IH _ _ Hrest) as (Hsub' & Hall & Hlast').
    split; [by etrans|]. split.
    + intros item' [->|?]%elem_of_cons; [by apply Hsub'|by apply Hall].
    + intros item'. destruct items as [|item2 items].
      * intros [= <-]. by injection Hrest as <- <-.
      * rewrite last_cons_cons. apply Hlast'.
Qed.

(** C10, as amended: when [cmorization] returns, with a [save_variable]
    that removes no file, it has removed the merged file of the last
    variable and nothing else: the store is the store at the end of the
    loop without that file, and the merged file of every earlier variable
    is still there unless its path is the path of the last one. *)
Theorem cmorization_removes_last_merged_file (CFG : Config)
    (in_dir out_dir : string) fs (r : gmap string string) fs'
    (earlier : list (string * VarCfg)) (final : string * VarCfg) :
  cfg_variables CFG = (earlier ++ [final])%list →
  cmorization CFG in_dir out_dir fs = (Ok r, fs') →
  (∃ st fs_loop,
     foldM (cmorization_body CFG in_dir out_dir)
       {| l_glob_attrs := cfg_attributes CFG; l_inpfile := None |}
       (cfg_variables CFG) fs = (Ok st, fs_loop)
     ∧ fs' = delete (merged_path out_dir final.2) fs_loop)
  ∧ (merged_path out_dir final.2 ∉ dom fs')
  ∧ (∀ item,
       item ∈ earlier →
       merged_path out_dir item.2 ≠ merged_path out_dir final.2 →
       merged_path out_dir item.2 ∈ dom fs').
Proof using save_variable_keeps.
  intros Hvars. unfold cmorization, bindM, liftR, retM, os_remove.
  destruct (getitem _ "tier"); [|done].
  destruct (getitem _ "dataset_id"); [|done].
  destruct (foldM _ _ _ fs) as [[st|] fs1] eqn:Hloop; [|done].
  pose proof Hloop as Hloop'.
  rewrite Hvars in Hloop'.
  apply cmorization_loop_ok in Hloop' as (_ & Hall & Hlast).
  rewrite (Hlast final) by apply last_snoc. cbn.
  destruct (fs1 !! merged_path out_dir final.2) eqn:Hfile; [|done].
  intros [= <- <-]. split; [by eauto|]. split.
  - rewrite dom_delete_L. intros [_ Hnot]%elem_of_difference.
    by apply Hnot, elem_of_singleton.
  - intros item Hitem Hne. rewrite dom_delete_L.
    apply elem_of_difference. split; [|by rewrite elem_of_singleton].
    apply Hall, elem_of_app. by left.
Qed.

End KeepsFiles.

End Cmorization.

(** * Further properties *)

(** ** [merge_data]: edge cases, atomicity, and what it writes *)

Section MergeDataMore.

Context {Arr : Type} `{Xarray Arr, FileSystem Arr}.

Implicit Types (fs : FS Arr) (da : DataArray Arr) (x var : string).

Lemma getitem_ok {V} (d : gmap string V) (k : string) (v : V) :
  getitem d k = Ok v ↔ d !! k = Some v.
Proof. unfold getitem. destruct (d !! k); naive_solver. Qed.

(** What the five lookups of line 112 give when none of them fails. *)
Lemma copy_global_attrs_ok (ds : Dataset Arr) (m : gmap string string) :
  copy_global_attrs ds = Ok m →
  dom m = {[ "creator_name"; "creator_url"; "license"; "sensor";
             "processing_level" ]}
  ∧ ∀ k, k ∈ ["creator_name"; "creator_url"; "license"; "sensor";
              "processing_level"] →
         m !! k = ds_attrs ds !! k.
Proof.
  unfold copy_global_attrs.
  destruct (getitem _ "creator_name") as [a1|] eqn:H1; cbn; [|done].
  destruct (getitem _ "creator_url") as [a2|] eqn:H2; cbn; [|done].
  destruct (getitem _ "license") as [a3|] eqn:H3; cbn; [|done].
  destruct (getitem _ "sensor") as [a4|] eqn:H4; cbn; [|done].
  destruct (getitem _ "processing_level") as [a5|] eqn:H5; cbn; [|done].
  apply getitem_ok in H1, H2, H3, H4, H5. intros [= <-]. split.
  - rewrite !dom_insert_L, dom_singleton_L. set_solver.
  - intros k Hk. rewrite !elem_of_cons, elem_of_nil in Hk.
    destruct Hk as [->|[->|[->|[->|[->|[]]]]]]; by simplify_map_eq.
Qed.

(** A file that goes through the steps of lines 94-104 can be opened,
    has the variable, and the variable has the three attributes. *)
Lemma per_file_ok (binned : bool) fs var (bins : Z) x
    (r : Dataset Arr * DataArray Arr) :
  per_file binned fs var bins x = Ok r →
  ∃ (f : NcFile Arr) da,
    fs !! x = Some f
    ∧ r.1 = nc_dataset f
    ∧ ds_vars (nc_dataset f) !! var = Some da
    ∧ Forall (λ k, is_Some (da_attrs da !! k))
        ["grid_mapping"; "ancillary_variables"; "parameter_vocab_uri"].
Proof.
  assert (∀ r0, select_variable fs var x = Ok r0 →
    ∃ (f : NcFile Arr) da,
      fs !! x = Some f ∧ r0.1 = nc_dataset f
      ∧ ds_vars (nc_dataset f) !! var = Some da
      ∧ Forall (λ k, is_Some (da_attrs da !! k))
          ["grid_mapping"; "ancillary_variables"; "parameter_vocab_uri"])
    as Hselect.
  { intros r0. unfold select_variable, open_dataset.
    destruct (fs !! x) as [f|] eqn:Hfile; cbn; [|done].
    destruct (getitem _ var) as [da|] eqn:Hvar; cbn; [|done].
    apply getitem_ok in Hvar. unfold sel_lat.
    destruct (sel_lat_reversed _) as [v|]; cbn; [|done].
    unfold del_attr at 1, delitem. cbn.
    destruct (da_attrs da !! "grid_mapping") eqn:H1; cbn; [|done].
    unfold del_attr at 1, delitem. cbn. rewrite lookup_delete_ne by done.
    destruct (da_attrs da !! "ancillary_variables") eqn:H2; cbn; [|done].
    unfold del_attr at 1, delitem. cbn. rewrite !lookup_delete_ne by done.
    destruct (da_attrs da !! "parameter_vocab_uri") eqn:H3; cbn; [|done].
    intros [= <-]. exists f, da. repeat split; [done..|].
    repeat constructor; by eexists. }
  unfold per_file, select_and_coarsen. destruct binned; [|apply Hselect].
  destruct (select_variable fs var x) as [r0|] eqn:Hr0; cbn; [|done].
  destruct (coarsen_lat_lon bins r0.2); cbn; [|done].
  intros [= <-]. exact (Hselect r0 eq_refl).
Qed.

(** One iteration of the loop in terms of the steps per file, whatever
    the list of files and the state of the locals. *)
Lemma merge_body_unfold fs var (binned : bool) (bins : Z)
    (datafile : list string) (st : merge_locals) x :
  merge_body fs var binned bins datafile st x =
    (r ←r per_file binned fs var bins x;
     if bool_decide (datafile !! 0%nat = Some x) then
       meta ←r copy_global_attrs r.1;
       Ok {| newda := Some r.2;
             dsmeta := Some (<["BINNING" := binning_text binned bins]> meta) |}
     else
       old ←r from_option Ok (Raise (NameError "newda")) (newda st);
       new ←r concat old r.2 "time";
       Ok {| newda := Some new; dsmeta := dsmeta st |}).
Proof.
  unfold merge_body, per_file, select_and_coarsen, select_variable,
    coarsen_lat_lon, copy_global_attrs.
  cbn [foldR].
  destruct (open_dataset fs x) as [ds|]; cbn; [|by destruct binned].
  destruct (getitem (ds_vars ds) var) as [da|]; cbn; [|by destruct binned].
  destruct (sel_lat da) as [da1|]; cbn; [|by destruct binned].
  destruct (del_attr da1 _) as [da2|]; cbn; [|by destruct binned].
  destruct (del_attr da2 _) as [da3|]; cbn; [|by destruct binned].
  destruct (del_attr da3 _) as [da4|]; cbn; [|by destruct binned].
  destruct binned; cbn.
  - destruct (coarsen_mean "lat" bins da4) as [da5|]; cbn; [|done].
    destruct (coarsen_mean "lon" bins da5) as [da6|]; cbn; [|done].
    case_bool_decide; [|done].
    by repeat (destruct (getitem (ds_attrs ds) _); cbn; [|done]).
  - case_bool_decide; [|done].
    by repeat (destruct (getitem (ds_attrs ds) _); cbn; [|done]).
Qed.

(** What the locals of the loop always satisfy: [dsmeta] is bound whenever
    [newda] is, and it holds the five global attributes of the first file
    of the list and the [BINNING] text. *)
Definition merge_inv fs (binned : bool) (bins : Z) (datafile : list string)
    (st : @merge_locals Arr) : Prop :=
  (is_Some (newda st) → is_Some (dsmeta st))
  ∧ ∀ meta, dsmeta st = Some meta →
      ∃ x0 (f : NcFile Arr) m0,
        datafile !! 0%nat = Some x0
        ∧ fs !! x0 = Some f
        ∧ copy_global_attrs (nc_dataset f) = Ok m0
        ∧ meta = <["BINNING" := binning_text binned bins]> m0.

Lemma merge_body_inv fs var (binned : bool) (bins : Z)
    (datafile : list string) (st st' : merge_locals) x :
  merge_body fs var binned bins datafile st x = Ok st' →
  merge_inv fs binned bins datafile st →
  merge_inv fs binned bins datafile st'.
Proof.
  rewrite merge_body_unfold.
  destruct (per_file binned fs var bins x) as [r|] eqn:Hr; cbn; [|done].
  apply per_file_ok in Hr as (f & da & Hfile & Hds & _).
  case_bool_decide as Hfirst.
  - destruct (copy_global_attrs r.1) as [m0|] eqn:Hm0; cbn; [|done].
    intros [= <-] _. split; [by eauto|].
    intros meta [= <-]. exists x, f, m0. by rewrite <- Hds.
  - destruct (newda st) as [old|] eqn:Hold; cbn; [|done].
    destruct (concat old r.2 "time") as [new|]; cbn; [|done].
    intros [= <-] [Hbound Hmeta]. split; [|done].
    intros _. cbn. apply Hbound. by eexists.
Qed.

(** The loop keeps the invariant and only goes past files that pass the
    steps per file. *)
Lemma merge_loop_inv fs var (binned : bool) (bins : Z)
    (datafile xs : list string) (st st' : merge_locals) :
  foldR (merge_body fs var binned bins datafile) st xs = Ok st' →
  (merge_inv fs binned bins datafile st →
   merge_inv fs binned bins datafile st')
  ∧ Forall (λ x, is_Some (fs !! x) ∧
                 ∃ r, per_file binned fs var bins x = Ok r) xs.
Proof.
  revert st. induction xs as [|x xs IH]; intros st; cbn [foldR].
  - intros [= <-]. by split.
  - destruct (merge_body _ _ _ _ _ st x) as [st1|] eqn:Hbody; cbn; [|done].
    intros [Hinv Hall]%IH. split.
    + intros Hst. by eapply Hinv, merge_body_inv.
    + constructor; [|done]. rewrite merge_body_unfold in Hbody.
      destruct (per_file binned fs var bins x) as [r|] eqn:Hr; [|done].
      split; [|by eexists].
      apply per_file_ok in Hr as (f & _ & -> & _). by eexists.
Qed.

(** What [merge_data] has gone through when it returns. *)
Lemma merge_data_ok_loop (in_dir out_dir : string) (raw_info : RawInfo)
    (bins : Z) fs (path binning : string) fs' :
  merge_data in_dir out_dir raw_info bins fs = (Ok (path, binning), fs') →
  ∃ (st : merge_locals) da meta,
    foldR (merge_body fs (ri_name raw_info) (do_bin_of bins) bins
             (sorted (glob fs (in_dir +:+ "/" +:+ ri_file raw_info
                               +:+ "*.nc"))))
      {| newda := None; dsmeta := None |}
      (sorted (glob fs (in_dir +:+ "/" +:+ ri_file raw_info +:+ "*.nc")))
      = Ok st
    ∧ newda st = Some da
    ∧ dsmeta st = Some meta
    ∧ meta !! "BINNING" = Some binning
    ∧ path = os_path_join out_dir (ri_file raw_info +:+ "_merged.nc")
    ∧ fs' = <[path := {| nc_dataset :=
                           {| ds_vars := {[ ri_name raw_info := da ]};
                              ds_attrs := meta |};
                         nc_encoding := merge_encoding (ri_name raw_info);
                         nc_unlimited_dims := ["time"] |}]> fs.
Proof.
  unfold merge_data, bindM, readM, liftR, retM, to_netcdf, merged_dataset.
  destruct (foldR _ _ _) as [st|] eqn:Hloop; cbn; [|done].
  destruct (newda st) as [da|] eqn:Hda; cbn; [|done].
  destruct (dsmeta st) as [meta|] eqn:Hmeta; cbn; [|done].
  destruct (can_write _); [|done].
  destruct (getitem meta "BINNING") as [b|] eqn:Hb; cbn; [|done].
  apply getitem_ok in Hb. intros [= <- <- <-].
  exists st, da, meta. by rewrite (right_id_L ∅ (∪)).
Qed.

(** The [BINNING] text that [merge_data] returns. *)
Lemma merge_data_returns_binning_text (in_dir out_dir : string)
    (raw_info : RawInfo) (bins : Z) fs (path binning : string) fs' :
  merge_data in_dir out_dir raw_info bins fs = (Ok (path, binning), fs') →
  binning = binning_text (do_bin_of bins) bins.
Proof.
  intros (st & da & meta & Hloop & _ & Hmeta & Hb & _)%merge_data_ok_loop.
  apply merge_loop_inv in Hloop as [Hinv _].
  destruct Hinv as [_ Hinv].
  { split; [by intros [? [=]]|]. by intros ? [=]. }
  destruct (Hinv _ Hmeta) as (? & ? & ? & _ & _ & _ & ->).
  rewrite lookup_insert_eq in Hb. by injection Hb.
Qed.

(** An exception of [merge_data] leaves the store as it was. *)
Lemma merge_data_raises_unchanged (in_dir out_dir : string)
    (raw_info : RawInfo) (bins : Z) fs (e : exn) fs' :
  merge_data in_dir out_dir raw_info bins fs = (Raise e, fs') → fs' = fs.
Proof.
  unfold merge_data, bindM, readM, liftR, retM, to_netcdf.
  destruct (foldR _ _ _) as [st|] eqn:Hloop; cbn; [|by intros [= _ <-]].
  destruct (newda st); cbn; [|by intros [= _ <-]].
  destruct (dsmeta st) as [meta|] eqn:Hmeta; cbn; [|by intros [= _ <-]].
  destruct (can_write _); [|by intros [= _ <-]].
  apply merge_loop_inv in Hloop as [Hinv _].
  destruct Hinv as [_ Hinv].
  { split; [by intros [? [=]]|]. by intros ? [=]. }
  destruct (Hinv _ Hmeta) as (? & ? & ? & _ & _ & _ & ->).
  unfold getitem. by rewrite lookup_insert_eq.
Qed.

(** X1: when the pattern matches no file, the loop does not run, [newda]
    is unbound on line 125, and [merge_data] raises the [NameError] for it
    (Python's [UnboundLocalError]) without writing anything. *)
Theorem merge_data_without_files (in_dir out_dir : string)
    (raw_info : RawInfo) (bins : Z) fs :
  glob fs (in_dir +:+ "/" +:+ ri_file raw_info +:+ "*.nc") = [] →
  merge_data in_dir out_dir raw_info bins fs
    = (Raise (NameError "newda"), fs).
Proof.
  intros Hnone. unfold merge_data, bindM, readM, liftR. by rewrite Hnone.
Qed.

(** X2: [merge_data] writes at most one file and removes none.  When it
    raises, the store is as it was; when it returns, the path it returns
    is [os.path.join(out_dir, file + '_merged.nc')], a file is there, and
    every other path holds what it held before. *)
Theorem merge_data_writes_one_file_or_nothing (in_dir out_dir : string)
    (raw_info : RawInfo) (bins : Z) fs :
  match merge_data in_dir out_dir raw_info bins fs with
  | (Raise _, fs') => fs' = fs
  | (Ok (path, _), fs') =>
    path = os_path_join out_dir (ri_file raw_info +:+ "_merged.nc")
    ∧ is_Some (fs' !! path)
    ∧ ∀ other, other ≠ path → fs' !! other = fs !! other
  end.
Proof.
  destruct (merge_data in_dir out_dir raw_info bins fs)
    as [[[path binning]|e] fs'] eqn:Hrun.
  - apply merge_data_ok_loop in Hrun
      as (st & da & meta & _ & _ & _ & _ & Hpath & ->).
    split; [done|]. split.
    + rewrite lookup_insert_eq. by eexists.
    + intros other Hother. by rewrite lookup_insert_ne.
  - by eapply merge_data_raises_unchanged.
Qed.

(** X3: the file that [merge_data] writes holds the one variable, the
    encoding of lines 128-141, and exactly six global attributes: the
    [BINNING] text, which is also the string returned, and the five
    attributes copied from the first file in sorted order, with the
    values they have there.  Every other global attribute of the inputs
    is dropped. *)
Theorem merge_data_written_file (in_dir out_dir : string)
    (raw_info : RawInfo) (bins : Z) fs (path binning : string) fs' :
  merge_data in_dir out_dir raw_info bins fs = (Ok (path, binning), fs') →
  binning = binning_text (do_bin_of bins) bins
  ∧ ∃ x0 (f0 : NcFile Arr) da (written : gmap string string),
      sorted (glob fs (in_dir +:+ "/" +:+ ri_file raw_info +:+ "*.nc"))
        !! 0%nat = Some x0
      ∧ fs !! x0 = Some f0
      ∧ fs' !! path
        = Some {| nc_dataset :=
                    {| ds_vars := {[ ri_name raw_info := da ]};
                       ds_attrs := written |};
                  nc_encoding := merge_encoding (ri_name raw_info);
                  nc_unlimited_dims := ["time"] |}
      ∧ dom written
        = {[ "BINNING"; "creator_name"; "creator_url"; "license"; "sensor";
             "processing_level" ]}
      ∧ written !! "BINNING" = Some binning
      ∧ ∀ k, k ∈ ["creator_name"; "creator_url"; "license"; "sensor";
                  "processing_level"] →
             written !! k = ds_attrs (nc_dataset f0) !! k.
Proof.
  intros Hrun. split; [by eapply merge_data_returns_binning_text|].
  apply merge_data_ok_loop in Hrun
    as (st & da & meta & Hloop & _ & Hmeta & Hb & _ & ->).
  apply merge_loop_inv in Hloop as [Hinv _].
  destruct Hinv as [_ Hinv].
  { split; [by intros [? [=]]|]. by intros ? [=]. }
  destruct (Hinv _ Hmeta) as (x0 & f0 & m0 & Hfirst & Hfile & Hm0 & ->).
  apply copy_global_attrs_ok in Hm0 as [Hdom Hvalues].
  exists x0, f0, da, (<["BINNING" := binning_text (do_bin_of bins) bins]> m0).
  split; [done|]. split; [done|]. split; [by rewrite lookup_insert_eq|].
  split; [by rewrite dom_insert_L, Hdom|]. split; [done|].
  intros k Hk. rewrite lookup_insert_ne; [by apply Hvalues|].
  intros <-. rewrite !elem_of_cons, elem_of_nil in Hk.
  destruct Hk as [?|[?|[?|[?|[?|[]]]]]]; done.
Qed.

(** X4: [merge_data] returns only if every path that the pattern matches
    is a readable file that has the variable, with the attributes
    [grid_mapping], [ancillary_variables] and [parameter_vocab_uri] on
    it: one entry that is not like that makes the whole merge fail. *)
Theorem merge_data_needs_every_file (in_dir out_dir : string)
    (raw_info : RawInfo) (bins : Z) fs (merged : string * string) fs' :
  merge_data in_dir out_dir raw_info bins fs = (Ok merged, fs') →
  ∀ x, x ∈ glob fs (in_dir +:+ "/" +:+ ri_file raw_info +:+ "*.nc") →
    ∃ (f : NcFile Arr) da,
      fs !! x = Some f
      ∧ ds_vars (nc_dataset f) !! ri_name raw_info = Some da
      ∧ Forall (λ k, is_Some (da_attrs da !! k))
          ["grid_mapping"; "ancillary_variables"; "parameter_vocab_uri"].
Proof.
  destruct merged as [path binning].
  intros (st & _ & _ & Hloop & _)%merge_data_ok_loop x Hx.
  apply merge_loop_inv in Hloop as [_ Hall].
  rewrite Forall_forall in Hall.
  destruct (Hall x) as [_ [r Hr]]; [by rewrite sorted_Permutation|].
  apply per_file_ok in Hr as (f & da & ? & _ & ? & ?). by exists f, da.
Qed.

Lemma foldR_ext {S X} (f g : S → X → result S) (st : S) (ys : list X) :
  (∀ st y, y ∈ ys → f st y = g st y) →
  foldR f st ys = foldR g st ys.
Proof.
  revert st. induction ys as [|y ys IH]; intros st Hext; cbn; [done|].
  rewrite (Hext st y) by by left.
  destruct (g st y); cbn; [|done]. apply IH.
  intros st' y' Hy'. apply Hext. by right.
Qed.

(** X11: [merge_data] reads the files that the pattern matches and no
    other file.  On two stores in which the pattern matches the same
    paths, with the same files at these paths, it returns the same value
    or raises the same exception, and it writes the same merged file. *)
Theorem merge_data_reads_only_matched_files (in_dir out_dir : string)
    (raw_info : RawInfo) (bins : Z) fs1 fs2 :
  glob fs1 (in_dir +:+ "/" +:+ ri_file raw_info +:+ "*.nc")
    = glob fs2 (in_dir +:+ "/" +:+ ri_file raw_info +:+ "*.nc") →
  (∀ x, x ∈ glob fs1 (in_dir +:+ "/" +:+ ri_file raw_info +:+ "*.nc") →
        fs1 !! x = fs2 !! x) →
  (merge_data in_dir out_dir raw_info bins fs1).1
    = (merge_data in_dir out_dir raw_info bins fs2).1
  ∧ ∀ path binning,
      (merge_data in_dir out_dir raw_info bins fs1).1 = Ok (path, binning) →
      (merge_data in_dir out_dir raw_info bins fs1).2 !! path
        = (merge_data in_dir out_dir raw_info bins fs2).2 !! path.
Proof.
  intros Hglob Hsame.
  unfold merge_data, bindM, readM, liftR, retM, to_netcdf.
  rewrite <- Hglob.
  set (datafile :=
         sorted (glob fs1 (in_dir +:+ "/" +:+ ri_file raw_info +:+ "*.nc"))).
  assert (foldR (merge_body fs2 (ri_name raw_info) (do_bin_of bins) bins
                   datafile) {| newda := None; dsmeta := None |} datafile
          = foldR (merge_body fs1 (ri_name raw_info) (do_bin_of bins) bins
                     datafile) {| newda := None; dsmeta := None |} datafile)
    as ->.
  { apply foldR_ext. intros st y Hy. unfold merge_body, open_dataset.
    rewrite Hsame; [done|]. subst datafile.
    by rewrite sorted_Permutation in Hy. }
  destruct (foldR _ _ _) as [st|]; cbn; [|done].
  destruct (newda st); cbn; [|done].
  destruct (dsmeta st) as [meta|]; cbn; [|done].
  destruct (can_write _); [|done].
  destruct (getitem meta "BINNING"); cbn; [|done].
  split; [done|]. intros path binning [= <- _].
  by rewrite !lookup_insert_eq.
Qed.

End MergeDataMore.

(** ** Cubes: how the two fixes of the module compose *)

Lemma fix_data_keeps_coords `{IrisMaths} (cube cube' : Cube)
    (var name : string) :
  _fix_data cube var = Ok cube' →
  cube_coords cube' name = cube_coords cube name.
Proof.
  unfold cube_coords, cube_all_coords, _fix_data, constant_metadata,
    cube_imul.
  case_bool_decide; [|by intros [= <-]].
  destruct (imul_data _ _); by intros [= <-].
Qed.

Lemma fix_data_keeps_aux_coords `{IrisMaths} (cube cube' : Cube)
    (var : string) :
  _fix_data cube var = Ok cube' →
  cube_aux_coords cube' = cube_aux_coords cube.
Proof.
  unfold _fix_data, constant_metadata, cube_imul.
  case_bool_decide; [|by intros [= <-]].
  destruct (imul_data _ _); by intros [= <-].
Qed.

(** [_fix_data] reads the metadata and the data of the cube only, and
    hands on the rest. *)
Lemma fix_data_with_coords `{IrisMaths} (cube : Cube) (var : string)
    (aux : list (Coord * list nat)) (coordinates : option string) :
  _fix_data {| cube_metadata := cube_metadata cube;
               cube_data := cube_data cube;
               cube_dim_coords := cube_dim_coords cube;
               cube_aux_coords := aux;
               cube_coordinates := coordinates |} var
  = (cube' ←r _fix_data cube var;
     Ok {| cube_metadata := cube_metadata cube';
           cube_data := cube_data cube';
           cube_dim_coords := cube_dim_coords cube';
           cube_aux_coords := aux;
           cube_coordinates := coordinates |}).
Proof.
  unfold _fix_data, constant_metadata, cube_imul.
  case_bool_decide; [|done]. cbn.
  by destruct (imul_data _ _).
Qed.

(** X10: [_add_depth_coord] and [_fix_data] commute: scaling the data
    after adding the depth coordinate gives the same cube as adding the
    coordinate after scaling the data, so their order on lines 75-76 does
    not matter. *)
Theorem fix_data_commutes_with_add_depth_coord `{IrisMaths}
    (cube : Cube) (var : string) :
  (cube' ←r _add_depth_coord cube; _fix_data cube' var)
  = (cube' ←r _fix_data cube var; _add_depth_coord cube').
Proof.
  unfold _add_depth_coord.
  destruct (cube_coords cube "depth") eqn:Hdepth.
  - rewrite add_depth_coord_never_raises by done. cbn [bindR].
    unfold set_coordinates. cbn. rewrite fix_data_with_coords.
    destruct (_fix_data cube var) as [cube'|] eqn:Hfix; cbn; [|done].
    rewrite (fix_data_keeps_coords _ _ _ _ Hfix), Hdepth.
    rewrite add_depth_coord_never_raises
      by by rewrite (fix_data_keeps_coords _ _ _ _ Hfix).
    cbn. unfold set_coordinates. cbn.
    by rewrite (fix_data_keeps_aux_coords _ _ _ Hfix).
  - cbn [bindR].
    destruct (_fix_data cube var) as [cube'|] eqn:Hfix; cbn; [|done].
    by rewrite (fix_data_keeps_coords _ _ _ _ Hfix), Hdepth.
Qed.

(** ** [extract_variable] and [cmorization]: edge cases and what stays *)

Section CmorizationMore.

Context {Arr VarInfo : Type}.
Context `{IrisMaths, Xarray Arr, FileSystem Arr, Utilities Arr VarInfo}.

Implicit Types (fs : FS Arr) (cube : Cube) (attrs : gmap string string).

Lemma extract_loop_without_match (var_info : VarInfo)
    (var rawvar out_dir : string) attrs (cubes done : list Cube) fs :
  Forall (λ cube, var_name (cube_metadata cube) ≠ Some rawvar) cubes →
  foldM (extract_body var_info var rawvar out_dir attrs) done cubes fs
    = (Ok (done ++ cubes)%list, fs).
Proof.
  intros Hall. revert done.
  induction Hall as [|cube cubes Hcube _ IH]; intros done; cbn [foldM].
  - by rewrite app_nil_r.
  - unfold bindM, extract_body at 1.
    rewrite bool_decide_eq_false_2 by done. unfold retM at 1.
    by rewrite IH, <- app_assoc.
Qed.

(** X9: when no loaded cube has the raw variable name, [extract_variable]
    returns without an exception, fixes no cube and saves nothing: the
    store is as it was. *)
Theorem extract_variable_without_matching_cube (var_info : VarInfo)
    (raw_info : RawInfo) (out_dir : string) attrs fs
    (var : string) (cubes : list Cube) :
  short_name var_info = Ok var →
  iris_load fs (ri_file raw_info) = Ok cubes →
  Forall (λ cube, var_name (cube_metadata cube) ≠ Some (ri_name raw_info))
         cubes →
  extract_variable var_info raw_info out_dir attrs fs = (Ok cubes, fs).
Proof.
  intros Hname Hload Hall.
  unfold extract_variable, bindM, liftR, readM. rewrite Hname, Hload.
  by rewrite extract_loop_without_match.
Qed.

(** X5: [cmorization] looks up ['tier'] and ['dataset_id'] for its first
    log line before it does anything else, so a configuration without one
    of them gives the [KeyError] with the store untouched; and with no
    variable in the configuration the loop does not run, [inpfile] is
    unbound at [os.remove], and the [NameError] for it is raised, again
    with the store untouched. *)
Theorem cmorization_before_its_loop (CFG : Config)
    (in_dir out_dir : string) fs :
  match cfg_attributes CFG !! "tier", cfg_attributes CFG !! "dataset_id" with
  | None, _ =>
    cmorization CFG in_dir out_dir fs = (Raise (KeyError "tier"), fs)
  | Some _, None =>
    cmorization CFG in_dir out_dir fs = (Raise (KeyError "dataset_id"), fs)
  | Some _, Some _ =>
    cfg_variables CFG = [] →
    cmorization CFG in_dir out_dir fs = (Raise (NameError "inpfile"), fs)
  end.
Proof.
  unfold cmorization, bindM, liftR, getitem.
  destruct (cfg_attributes CFG !! "tier"); [|done].
  destruct (cfg_attributes CFG !! "dataset_id"); [|done].
  by intros ->.
Qed.

Lemma prepend_times_shift (n : nat) (s c : string) :
  prepend_times n s (s +:+ c) = s +:+ prepend_times n s c.
Proof. induction n as [|n IH]; cbn; [done|by rewrite IH]. Qed.

(** The attributes after one iteration of the loop of [cmorization]. *)
Lemma cmorization_body_attrs (CFG : Config) (in_dir out_dir : string)
    (st st' : cmor_locals) (item : string * VarCfg) fs fs' :
  cmorization_body CFG in_dir out_dir st item fs = (Ok st', fs') →
  ∃ comment,
    l_glob_attrs st !! "comment" = Some comment
    ∧ l_glob_attrs st' =
        <["comment" :=
            binning_text (do_bin_of (cfg_bin_size CFG)) (cfg_bin_size CFG)
            +:+ comment]>
          (<["mip" := vc_mip item.2]> (l_glob_attrs st)).
Proof.
  unfold cmorization_body, bindM, liftR, retM.
  destruct (get_variable _ _) as [var_info|]; [|done].
  destruct (merge_data _ _ _ _ fs) as [[[path binning]|] fs1] eqn:Hmerge;
    [|done].
  apply merge_data_returns_binning_text in Hmerge as ->.
  cbn [fst snd ri_name].
  destruct (getitem _ "comment") as [comment|] eqn:Hcomment; [|done].
  apply getitem_ok in Hcomment. rewrite lookup_insert_ne in Hcomment by done.
  destruct (extract_variable var_info _ _ _ _) as [[cubes|] fs2]; [|done].
  intros [= <- <-]. by exists comment.
Qed.

Lemma insert_comment_mip_twice (a : gmap string string)
    (c1 c2 m1 m2 : string) :
  <["comment" := c2]> (<["mip" := m2]>
    (<["comment" := c1]> (<["mip" := m1]> a)))
  = <["comment" := c2]> (<["mip" := m2]> a).
Proof.
  apply map_eq. intros k. rewrite !lookup_insert.
  repeat case_decide; congruence.
Qed.

(** The attributes after the loop of [cmorization]. *)
Lemma cmorization_loop_attrs (CFG : Config) (in_dir out_dir : string)
    (items : list (string * VarCfg)) (st st' : cmor_locals)
    (final : string * VarCfg) fs fs' :
  foldM (cmorization_body CFG in_dir out_dir) st items fs = (Ok st', fs') →
  last items = Some final →
  ∃ comment,
    l_glob_attrs st !! "comment" = Some comment
    ∧ l_glob_attrs st' =
        <["comment" :=
            prepend_times (length items)
              (binning_text (do_bin_of (cfg_bin_size CFG)) (cfg_bin_size CFG))
              comment]>
          (<["mip" := vc_mip final.2]> (l_glob_attrs st)).
Proof.
  revert st fs. induction items as [|item items IH]; intros st fs; [done|].
  cbn [foldM]. unfold bindM.
  destruct (cmorization_body _ _ _ st item fs) as [[st1|] fs1] eqn:Hstep;
    [|done].
  apply cmorization_body_attrs in Hstep as (comment & Hcomment & Hst1).
  intros Hrest Hlast. exists comment. split; [done|].
  destruct items as [|item2 items].
  - injection Hrest as <- <-. injection Hlast as <-. by rewrite Hst1.
  - rewrite last_cons_cons in Hlast.
    destruct (IH _ _ Hrest Hlast) as (comment1 & Hcomment1 & ->).
    rewrite Hst1, lookup_insert_eq in Hcomment1. injection Hcomment1 as <-.
    rewrite Hst1, insert_comment_mip_twice.
    by rewrite prepend_times_shift.
Qed.

(** X6: [glob_attrs] is the dictionary [CFG['attributes']] itself, and
    every iteration puts the binning text in front of its ['comment'] and
    overwrites its ['mip'].  When [cmorization] returns, the comment
    starts with one copy of the binning text per variable of the
    configuration, ['mip'] is the one of the last variable, and every
    other attribute is as it was. *)
Theorem cmorization_comment_grows (CFG : Config) (in_dir out_dir : string)
    fs (final_attrs : gmap string string) fs' :
  cmorization CFG in_dir out_dir fs = (Ok final_attrs, fs') →
  ∃ (comment : string) (final : string * VarCfg),
    cfg_attributes CFG !! "comment" = Some comment
    ∧ last (cfg_variables CFG) = Some final
    ∧ final_attrs =
        <["comment" :=
            prepend_times (length (cfg_variables CFG))
              (binning_text (do_bin_of (cfg_bin_size CFG)) (cfg_bin_size CFG))
              comment]>
          (<["mip" := vc_mip final.2]> (cfg_attributes CFG)).
Proof.
  unfold cmorization, bindM, liftR, retM, os_remove.
  destruct (getitem _ "tier"); [|done].
  destruct (getitem _ "dataset_id"); [|done].
  destruct (foldM _ _ _ fs) as [[st|] fs1] eqn:Hloop; [|done].
  destruct (last (cfg_variables CFG)) as [final|] eqn:Hlast.
  - destruct (cmorization_loop_attrs _ _ _ _ _ _ _ _ _ Hloop Hlast)
      as (comment & Hcomment & Hattrs).
    destruct (l_inpfile st) as [path|]; [|done]. cbn.
    destruct (fs1 !! path); [|done].
    intros [= <- <-]. by exists comment, final.
  - apply last_None in Hlast. rewrite Hlast in Hloop.
    by injection Hloop as <- <-.
Qed.

(** X7: the lookup of ['comment'] on line 172 comes after [merge_data] has
    written the merged file of the first variable.  With a configuration
    whose attributes lack ['comment'], [cmorization] raises the [KeyError]
    and leaves that merged file in the store: nothing removes it. *)
Theorem cmorization_without_comment (CFG : Config) (in_dir out_dir : string)
    fs (item : string * VarCfg) (rest : list (string * VarCfg))
    (var_info : VarInfo) (path binning : string) fs1 :
  is_Some (cfg_attributes CFG !! "tier") →
  is_Some (cfg_attributes CFG !! "dataset_id") →
  cfg_attributes CFG !! "comment" = None →
  cfg_variables CFG = item :: rest →
  get_variable (vc_mip item.2) item.1 = Ok var_info →
  merge_data in_dir out_dir
    {| ri_name := vc_raw item.2; ri_file := vc_file item.2 |}
    (cfg_bin_size CFG) fs = (Ok (path, binning), fs1) →
  cmorization CFG in_dir out_dir fs = (Raise (KeyError "comment"), fs1)
  ∧ path = merged_path out_dir item.2
  ∧ is_Some (fs1 !! path).
Proof.
  intros [tier Htier] [id Hid] Hcomment Hvars Hvar Hmerge.
  split.
  - unfold cmorization, bindM, liftR, getitem. rewrite Htier, Hid, Hvars.
    cbn [foldM]. unfold bindM, cmorization_body at 1, bindM, liftR.
    rewrite Hvar. cbn [ri_name]. rewrite Hmerge. cbn [fst snd].
    cbn [l_glob_attrs]. unfold getitem.
    by rewrite lookup_insert_ne, Hcomment.
  - apply merge_data_ok in Hmerge as [-> [nc ->]]. split; [done|].
    rewrite lookup_insert_eq. by eexists.
Qed.

Section NoCleanup.

(** [save_variable] writes files and removes none. *)
Hypothesis save_variable_keeps :
  ∀ cube (var out_dir : string) attrs (local_keys unlimited : list string)
    fs (r : result unit) fs',
    save_variable cube var out_dir attrs local_keys unlimited fs = (r, fs') →
    dom fs ⊆ dom fs'.

Lemma merge_data_keeps (in_dir out_dir : string) (raw_info : RawInfo)
    (bins : Z) fs (r : result (string * string)) fs' :
  merge_data in_dir out_dir raw_info bins fs = (r, fs') → dom fs ⊆ dom fs'.
Proof.
  destruct r as [[path binning]|e].
  - intros [_ [nc ->]]%merge_data_ok. rewrite dom_insert_L.
    apply union_subseteq_r.
  - by intros ->%merge_data_raises_unchanged.
Qed.

Lemma cmorization_body_keeps (CFG : Config) (in_dir out_dir : string)
    (st : cmor_locals) (item : string * VarCfg) fs
    (r : result cmor_locals) fs' :
  cmorization_body CFG in_dir out_dir st item fs = (r, fs') →
  dom fs ⊆ dom fs'.
Proof using save_variable_keeps.
  unfold cmorization_body, bindM, liftR, retM.
  destruct (get_variable _ _) as [var_info|]; [|by intros [= <- <-]].
  destruct (merge_data _ _ _ _ fs) as [[merged|] fs1] eqn:Hmerge;
    apply merge_data_keeps in Hmerge; [|by intros [= <- <-]].
  destruct (getitem _ "comment") as [comment|]; [|by intros [= <- <-]].
  destruct (extract_variable var_info _ _ _ _) as [[cubes|] fs2] eqn:Hextract;
    apply (extract_variable_keeps save_variable_keeps) in Hextract;
    intros [= <- <-]; by etrans.
Qed.

(** Where the store of a call that raises comes from. *)
Lemma cmorization_raise_cases (CFG : Config) (in_dir out_dir : string)
    fs (e : exn) fs' :
  cmorization CFG in_dir out_dir fs = (Raise e, fs') →
  (fs' = fs
   ∧ (cfg_attributes CFG !! "tier" = None
      ∨ cfg_attributes CFG !! "dataset_id" = None))
  ∨ ∃ r, foldM (cmorization_body CFG in_dir out_dir)
           {| l_glob_attrs := cfg_attributes CFG; l_inpfile := None |}
           (cfg_variables CFG) fs = (r, fs').
Proof.
  unfold cmorization, bindM, liftR, retM, os_remove, getitem.
  destruct (cfg_attributes CFG !! "tier");
    [|intros [= _ <-]; left; by auto].
  destruct (cfg_attributes CFG !! "dataset_id");
    [|intros [= _ <-]; left; by auto].
  destruct (foldM _ _ _ fs) as [[st|e0] fs1] eqn:Hloop;
    [|intros [= _ <-]; right; by eexists].
  destruct (l_inpfile st) as [path|]; cbn;
    [|intros [= _ <-]; right; by eexists].
  destruct (fs1 !! path); [done|].
  intros [= _ <-]. right. by eexists.
Qed.

(** X8: [cmorization] has no clean-up on failure.  With a [save_variable]
    that removes no file, every file that is in the store before a call
    that raises is still there afterwards; and when ['tier'] and
    ['dataset_id'] are there, so is the merged file of every variable
    whose iteration had ended before the exception. *)
Theorem cmorization_failure_removes_nothing (CFG : Config)
    (in_dir out_dir : string) fs (e : exn) fs' :
  cmorization CFG in_dir out_dir fs = (Raise e, fs') →
  dom fs ⊆ dom fs'
  ∧ (is_Some (cfg_attributes CFG !! "tier") →
     is_Some (cfg_attributes CFG !! "dataset_id") →
     ∀ (done rest : list (string * VarCfg)) (st : cmor_locals) fs_done,
       cfg_variables CFG = (done ++ rest)%list →
       foldM (cmorization_body CFG in_dir out_dir)
         {| l_glob_attrs := cfg_attributes CFG; l_inpfile := None |}
         done fs = (Ok st, fs_done) →
       ∀ item, item ∈ done → merged_path out_dir item.2 ∈ dom fs').
Proof using save_variable_keeps.
  intros [[-> Hnone]|[r Hloop]]%cmorization_raise_cases.
  - split; [done|]. intros [? Htier] [? Hid].
    destruct Hnone; congruence.
  - split.
    + eapply foldM_keeps; [|exact Hloop].
      intros ?????. apply cmorization_body_keeps.
    + intros _ _ done rest st fs_done Hvars Hdone item Hitem.
      rewrite Hvars, foldM_app in Hloop. unfold bindM in Hloop.
      rewrite Hdone in Hloop.
      apply (cmorization_loop_ok save_variable_keeps) in Hdone
        as (_ & Hall & _).
      eapply foldM_keeps in Hloop;
        [|intros ?????; apply cmorization_body_keeps].
      by apply Hloop, Hall.
Qed.

(** X12: [cmorization] removes no file but the merged file of the last
    variable.  With a [save_variable] that removes no file, every file
    that is in the store before a call that returns is still there
    afterwards, unless it is at the path of that merged file. *)
Theorem cmorization_keeps_other_files (CFG : Config)
    (in_dir out_dir : string) fs (r : gmap string string) fs'
    (final : string * VarCfg) :
  last (cfg_variables CFG) = Some final →
  cmorization CFG in_dir out_dir fs = (Ok r, fs') →
  ∀ path, path ∈ dom fs → path ≠ merged_path out_dir final.2 →
          path ∈ dom fs'.
Proof using save_variable_keeps.
  intros Hlast. unfold cmorization, bindM, liftR, retM, os_remove.
  destruct (getitem _ "tier"); [|done].
  destruct (getitem _ "dataset_id"); [|done].
  destruct (foldM _ _ _ fs) as [[st|] fs1] eqn:Hloop; [|done].
  apply (cmorization_loop_ok save_variable_keeps) in Hloop
    as (Hsub & _ & Hpath).
  rewrite (Hpath final Hlast). cbn.
  destruct (fs1 !! merged_path out_dir final.2); [|done].
  intros [= <- <-] path Hin Hne. rewrite dom_delete_L.
  apply elem_of_difference. split; [by apply Hsub|].
  by rewrite elem_of_singleton.
Qed.

End NoCleanup.

End CmorizationMore.

(** ** The cmorizer in the small world *)

Import Scenario.

(** An equation between closed terms, checked by evaluating both sides. *)
Ltac by_evaluation :=
  lazymatch goal with
  | |- ?l = ?r =>
    let v := eval vm_compute in r in
    vm_cast_no_check (@eq_refl _ v)
  end.

(** A decidable proposition about closed terms, checked by evaluating
    its decision. *)
Ltac by_decision :=
  apply (bool_decide_unpack _); vm_compute; exact I.

(** The hypotheses of C2 hold for the registry with the two modules of
    the tests.  There the lookup depends on each of the three names: the
    variable of one module is not found in the other, where only the
    class for all variables applies, and nothing is found for a project
    without modules. *)
Lemma get_fixes_of_the_tests_witness :
  Fixes.get_fixes Fixes.registry "CMIP5" "FIO-ESM" "ch4" = [Fixes.Ch4]
  ∧ Fixes.get_fixes Fixes.registry "CMIP5" "FIO-ESM" "co2" = [Fixes.Co2]
  ∧ Fixes.get_fixes Fixes.registry "CMIP5" "HADGEM2-CC" "tas"
    = [Fixes.AllVars]
  ∧ Fixes.get_fixes Fixes.registry "CMIP5" "HADGEM2-CC" "o2"
    = [Fixes.AllVars; Fixes.O2]
  ∧ Fixes.get_fixes Fixes.registry "CMIP5" "HADGEM2-CC" "ch4"
    = [Fixes.AllVars]
  ∧ Fixes.get_fixes Fixes.registry "CMIP5" "FIO-ESM" "o2" = []
  ∧ Fixes.get_fixes Fixes.registry "CMIP6" "FIO-ESM" "ch4" = [].
Proof.
  destruct (get_fixes_of_the_tests Fixes.registry
              {[ "ch4" := Fixes.Ch4; "co2" := Fixes.Co2 ]}
              {[ "allvars" := Fixes.AllVars; "o2" := Fixes.O2 ]})
    as (Hlookup & _ & Hch4 & Hco2 & Htas & Ho2); [by_evaluation..|].
  do 4 (split; [done|]).
  repeat split; rewrite Hlookup; by_evaluation.
Defined.




(** On a cube of [float32] data, [_fix_data] with ['chl'] multiplies in
    binary32: with a numpy that rounds the factor first, the value [1.0]
    becomes the [float32] next to [1e-06], which is not [1e-06]. *)
Lemma fix_data_on_float32_data :
  (fixed ←r _fix_data
              (cube_of ("chlor_a", {| da_values := Raw "chlor_a@201001";
                                      da_attrs := var_attrs |})) "chl";
   Ok (cube_data fixed))
    = Ok (Float32 [S754_finite false 8796093 (-43);
                   S754_finite false 8796093 (-42)])
  ∧ SF2Prim (S754_finite false 8796093 (-43)) = 9.9999999747524271e-07%float
  ∧ (1 * 1e-06)%float = 9.9999999999999995e-07%float.
Proof. repeat split; vm_compute; reflexivity. Qed.

(** The hypotheses of C1 hold in the small world, where the file system
    lists the files in descending order, and [merge_data] writes the file
    [merged_chl]. *)
Lemma merge_data_linear_sequence_witness :
  @glob _ (listing reverse []) store "raw/chl*.nc"
    = ["raw/chl-201002.nc"; "raw/chl-201001.nc"]
  ∧ @merge_data _ _ (listing reverse []) "raw" "out" chl 2 store
    = (Ok ("out/chl_merged.nc", "Data binned using  2 by 2 cells average"),
       <["out/chl_merged.nc" := merged_chl]> store).
Proof.
  split; [by_evaluation|].
  etrans.
  - apply (@merge_data_linear_sequence _ _ (listing reverse [])
             "raw" "out" chl 2 store
             "raw/chl-201001.nc" ["raw/chl-201002.nc"]).
    + by_decision.
    + by_evaluation.
  - by_evaluation.
Defined.

(** The hypotheses of C8 hold in the small world: with bins of two cells
    every file is coarsened, with bins of three cells none is. *)
Lemma merge_data_bins_iff_even_nonzero_witness :
  @merge_data _ _ (listing id []) "raw" "out" chl 2 store
    = (Ok ("out/chl_merged.nc", "Data binned using  2 by 2 cells average"),
       <["out/chl_merged.nc" := merged_chl]> store)
  ∧ @merge_data _ _ (listing id []) "raw" "out" chl 3 store
    = (Ok ("out/chl_merged.nc", ""),
       <["out/chl_merged.nc" := merged_chl_unbinned]> store).
Proof.
  assert (NoDup (@glob _ (listing id []) store
                   ("raw" +:+ "/" +:+ ri_file chl +:+ "*.nc"))) as Hnodup
    by by_decision.
  assert (sorted (@glob _ (listing id []) store
                    ("raw" +:+ "/" +:+ ri_file chl +:+ "*.nc"))
          = ["raw/chl-201001.nc"; "raw/chl-201002.nc"]) as Hsorted
    by by_evaluation.
  split.
  - destruct (@merge_data_bins_iff_even_nonzero _ _ (listing id [])
                "raw" "out" chl 2 store _ _ Hnodup Hsorted)
      as (_ & Heven & _).
    etrans; [apply Heven|by_evaluation].
    split; [by exists 1|done].
  - destruct (@merge_data_bins_iff_even_nonzero _ _ (listing id [])
                "raw" "out" chl 3 store _ _ Hnodup Hsorted)
      as (_ & _ & Hodd & _).
    etrans; [apply Hodd|by_evaluation].
    left. by exists 1.
Defined.

(** The hypotheses of C4 hold in the small world: the second file lacks
    [ancillary_variables], the first file goes through the loop, and
    [merge_data] raises the [KeyError] and leaves the store as it was. *)
Lemma merge_data_missing_attribute_witness :
  @merge_data _ _ (listing id []) "raw" "out" chl 2 store_missing
    = (Raise (KeyError "ancillary_variables"), store_missing).
Proof.
  destruct (@merge_data_missing_attribute _ _ (listing id [])
    "raw" "out" chl 2 store_missing
    ["raw/chl-201001.nc"] [] "raw/chl-201002.nc"
    (raw_file (delete "ancillary_variables" var_attrs)
       ["chlor_a"; "chlor_a_log10_rmsd"] "201002")
    {| da_values := Raw "chlor_a@201002";
       da_attrs := delete "ancillary_variables" var_attrs |}
    "ancillary_variables") as [_ Hkey].
  - by_evaluation.
  - by_evaluation.
  - by_evaluation.
  - by_decision.
  - by_evaluation.
  - etrans; [|by_evaluation].
    apply (Hkey
      (returned
         (foldR (merge_body store_missing "chlor_a" (do_bin_of 2) 2
                   ["raw/chl-201001.nc"; "raw/chl-201002.nc"])
            {| newda := None; dsmeta := None |} ["raw/chl-201001.nc"])
         {| newda := None; dsmeta := None |})
      (Reversed (Raw "chlor_a@201002"))).
    + by_evaluation.
    + reflexivity.
Defined.

(** C4 as it was stated fails: an entry that sorts before the files and
    is not a readable netCDF file makes [merge_data] raise the exception
    of [xr.open_dataset], not the [KeyError] of the attribute that the
    second file lacks. *)
Lemma merge_data_raises_earlier_error :
  sorted (@glob _ (listing id ["raw/chl-2009.nc"]) store_missing
            "raw/chl*.nc")
    = ["raw/chl-2009.nc"; "raw/chl-201001.nc"; "raw/chl-201002.nc"]
  ∧ ((λ f, da_attrs <$> ds_vars (nc_dataset f) !! "chlor_a")
       <$> store_missing !! "raw/chl-201002.nc")
    = Some (Some (delete "ancillary_variables" var_attrs))
  ∧ @merge_data _ _ (listing id ["raw/chl-2009.nc"])
      "raw" "out" chl 2 store_missing
    = (Raise (OSError "raw/chl-2009.nc"), store_missing).
Proof. repeat split; by_evaluation. Qed.

(** The hypotheses of C9 hold in the small world for the ascending and
    the descending enumeration: on both, [merge_data] writes the file
    [merged_chl], in which the file of January comes before the file of
    February. *)
Lemma merge_data_enumeration_order_witness :
  @glob _ (listing id []) store "raw/chl*.nc"
    = ["raw/chl-201001.nc"; "raw/chl-201002.nc"]
  ∧ @glob _ (listing reverse []) store "raw/chl*.nc"
    = ["raw/chl-201002.nc"; "raw/chl-201001.nc"]
  ∧ @merge_data _ _ (listing id []) "raw" "out" chl 2 store
    = (Ok ("out/chl_merged.nc", "Data binned using  2 by 2 cells average"),
       <["out/chl_merged.nc" := merged_chl]> store)
  ∧ @merge_data _ _ (listing reverse []) "raw" "out" chl 2 store
    = (Ok ("out/chl_merged.nc", "Data binned using  2 by 2 cells average"),
       <["out/chl_merged.nc" := merged_chl]> store).
Proof.
  split; [by_evaluation|]. split; [by_evaluation|].
  destruct (@merge_data_enumeration_order _ _ (listing id [])
              (@glob _ (listing reverse [])) "raw" "out" chl 2 store
              ["raw/chl-201001.nc"; "raw/chl-201002.nc"])
    as [Hascending Hdescending].
  - by_decision.
  - vm_compute. apply perm_swap.
  - vm_compute. reflexivity.
  - by_decision.
  - split.
    + etrans; [exact Hascending|by_evaluation].
    + etrans; [exact Hdescending|by_evaluation].
Defined.

(** The hypotheses of C7 hold in the small world: of the two cubes of a
    raw file, the one named [chlor_a] is fixed and saved and the other one
    is as it was loaded. *)
Lemma extract_variable_matching_cubes_witness :
  (var_name ∘ cube_metadata)
    <$> returned (iris_load store "raw/chl-201001.nc") []
    = [Some "chlor_a_log10_rmsd"; Some "chlor_a"]
  ∧ Forall2 (λ cube cube',
       if bool_decide (var_name (cube_metadata cube) = Some "chlor_a")
       then cmorize_cube "chl" "chl" attrs cube = Ok cube'
       else cube' = cube)
      (returned (iris_load store "raw/chl-201001.nc") [])
      (returned run_extract.1 [])
  ∧ save_cubes "chl" "out" attrs
      (matching_cubes "chlor_a"
         (returned (iris_load store "raw/chl-201001.nc") [])
         (returned run_extract.1 [])) store
    = (Ok (), run_extract.2).
Proof.
  split; [by_evaluation|].
  assert (short_name (Utilities := sym_utilities) "chl" = Ok "chl")
    as Hname by reflexivity.
  assert (iris_load store (ri_file raw_chl)
          = Ok (returned (iris_load store "raw/chl-201001.nc") []))
    as Hload by by_evaluation.
  assert (@extract_variable _ _ _ sym_utilities "chl" raw_chl "out" attrs store
          = (Ok (returned run_extract.1 []), run_extract.2))
    as Hok by by_evaluation.
  exact (@extract_variable_matching_cubes _ _ _ sym_utilities "chl"
           raw_chl "out" attrs store "chl" _ _ _ Hname Hload Hok).
Defined.

(** The hypotheses of C10 hold in the small world for two variables with
    raw files of their own: the merged file of [kd], the last variable,
    is removed and the merged file of [chl] is still there. *)
Lemma cmorization_removes_last_merged_file_witness :
  (run_cmorization cfg_two).1
    = Ok (returned (run_cmorization cfg_two).1 ∅)
  ∧ ("out/kd_merged.nc" ∉ dom (run_cmorization cfg_two).2)
  ∧ "out/chl_merged.nc" ∈ dom (run_cmorization cfg_two).2.
Proof.
  assert (@cmorization _ _ _ _ (listing id []) _ cfg_two "raw" "out" store
          = (Ok (returned (run_cmorization cfg_two).1 ∅),
             (run_cmorization cfg_two).2))
    as Hok by by_evaluation.
  assert (∀ cube (var out_dir : string) (attrs : gmap string string)
            (local_keys unlimited : list string) (fs : FS SymArr)
            (r : result unit) (fs' : FS SymArr),
            save_variable cube var out_dir attrs local_keys unlimited fs
              = (r, fs') →
            dom fs ⊆ dom fs') as Hkeeps.
  { intros cube var out_dir attrs local_keys unlimited fs r fs' [= <- <-].
    rewrite dom_insert_L. apply union_subseteq_r. }
  destruct (@cmorization_removes_last_merged_file _ _ _ _ (listing id [])
              sym_utilities Hkeeps cfg_two "raw" "out" store _ _
              [("chl", {| vc_mip := "Omon"; vc_raw := "chlor_a";
                          vc_file := "chl" |})]
              ("kd", {| vc_mip := "Omon"; vc_raw := "kd_490";
                        vc_file := "kd" |})
              eq_refl Hok)
    as (_ & Hgone & Hkept).
  split; [by_evaluation|]. split; [exact Hgone|].
  apply (Hkept ("chl", {| vc_mip := "Omon"; vc_raw := "chlor_a";
                          vc_file := "chl" |})).
  - by left.
  - vm_compute. discriminate.
Defined.

(** C10 as it was stated fails: when two variables are read from the same
    raw files, the merged file of the first variable is the merged file of
    the last one, and it is gone when [cmorization] returns. *)
Lemma cmorization_shared_file_is_removed :
  length (cfg_variables cfg_shared) = 2%nat
  ∧ (merged_path "out" <$> (cfg_variables cfg_shared).*2)
    = ["out/chl_merged.nc"; "out/chl_merged.nc"]
  ∧ (run_cmorization cfg_shared).1
    = Ok (returned (run_cmorization cfg_shared).1 ∅)
  ∧ (run_cmorization cfg_shared).2 !! "out/chl_merged.nc" = None.
Proof. repeat split; by_evaluation. Qed.

(** ** The further properties in the small world *)

Lemma sym_save_variable_keeps cube (var out_dir : string)
    (attrs : gmap string string) (local_keys unlimited : list string)
    (fs : FS SymArr) (r : result unit) (fs' : FS SymArr) :
  save_variable cube var out_dir attrs local_keys unlimited fs = (r, fs') →
  dom fs ⊆ dom fs'.
Proof.
  intros [= <- <-]. rewrite dom_insert_L. apply union_subseteq_r.
Qed.

Lemma merge_chl_run :
  @merge_data _ _ (listing id []) "raw" "out" chl 2 store
    = (Ok ("out/chl_merged.nc", "Data binned using  2 by 2 cells average"),
       <["out/chl_merged.nc" := merged_chl]> store).
Proof. by_evaluation. Qed.

(** The hypothesis of X1 holds for a variable without raw files. *)
Lemma merge_data_without_files_witness :
  @merge_data _ _ (listing id []) "raw" "out" absent 2 store
    = (Raise (NameError "newda"), store).
Proof.
  apply (@merge_data_without_files _ _ (listing id [])
           "raw" "out" absent 2 store).
  by_evaluation.
Defined.

(** The hypothesis of X3 holds for the merge of the two [chl] files; the
    attribute [title] of the raw files is not in the merged file. *)
Lemma merge_data_written_file_witness :
  "Data binned using  2 by 2 cells average" = binning_text (do_bin_of 2) 2
  ∧ ∃ x0 (f0 : NcFile SymArr) da (written : gmap string string),
      sorted (@glob _ (listing id []) store
                ("raw" +:+ "/" +:+ ri_file chl +:+ "*.nc")) !! 0%nat
        = Some x0
      ∧ store !! x0 = Some f0
      ∧ <["out/chl_merged.nc" := merged_chl]> store !! "out/chl_merged.nc"
        = Some {| nc_dataset :=
                    {| ds_vars := {[ ri_name chl := da ]};
                       ds_attrs := written |};
                  nc_encoding := merge_encoding (ri_name chl);
                  nc_unlimited_dims := ["time"] |}
      ∧ dom written
        = {[ "BINNING"; "creator_name"; "creator_url"; "license"; "sensor";
             "processing_level" ]}
      ∧ written !! "BINNING" = Some "Data binned using  2 by 2 cells average"
      ∧ ∀ k, k ∈ ["creator_name"; "creator_url"; "license"; "sensor";
                  "processing_level"] →
             written !! k = ds_attrs (nc_dataset f0) !! k.
Proof.
  exact (@merge_data_written_file _ _ (listing id [])
           "raw" "out" chl 2 store _ _ _ merge_chl_run).
Defined.

(** The hypothesis of X4 holds for the same merge: the second file is
    readable and has what the loop needs. *)
Lemma merge_data_needs_every_file_witness :
  ∃ (f : NcFile SymArr) da,
    store !! "raw/chl-201002.nc" = Some f
    ∧ ds_vars (nc_dataset f) !! ri_name chl = Some da
    ∧ Forall (λ k, is_Some (da_attrs da !! k))
        ["grid_mapping"; "ancillary_variables"; "parameter_vocab_uri"].
Proof.
  apply (@merge_data_needs_every_file _ _ (listing id [])
           "raw" "out" chl 2 store _ _ merge_chl_run "raw/chl-201002.nc").
  by_decision.
Defined.

(** The hypotheses of X11 hold for the store and the store with another
    [kd] file. *)
Lemma merge_data_reads_only_matched_files_witness :
  (@merge_data _ _ (listing id []) "raw" "out" chl 2 store).1
  = (@merge_data _ _ (listing id []) "raw" "out" chl 2 store_other).1.
Proof.
  apply (@merge_data_reads_only_matched_files _ _ (listing id [])
           "raw" "out" chl 2 store store_other).
  - by_evaluation.
  - assert (@glob _ (listing id []) store
              ("raw" +:+ "/" +:+ ri_file chl +:+ "*.nc")
            = ["raw/chl-201001.nc"; "raw/chl-201002.nc"]) as ->
      by by_evaluation.
    intros x Hx. rewrite !elem_of_cons, elem_of_nil in Hx.
    destruct Hx as [->|[->|[]]]; by_evaluation.
Defined.

(** The hypotheses of X9 hold for a raw variable name that the raw file
    does not have. *)
Lemma extract_variable_without_matching_cube_witness :
  @extract_variable _ _ _ sym_utilities "tos" raw_sst "out" attrs store
    = (Ok (returned (iris_load store "raw/chl-201001.nc") []), store).
Proof.
  apply (@extract_variable_without_matching_cube _ _ _ sym_utilities
           "tos" raw_sst "out" attrs store "tos").
  - reflexivity.
  - by_evaluation.
  - by_decision.
Defined.

(** The hypothesis of X6 holds for the configuration with two variables:
    the comment ends up with the binning text twice. *)
Lemma cmorization_comment_grows_witness :
  ∃ (comment : string) (final : string * VarCfg),
    cfg_attributes cfg_two !! "comment" = Some comment
    ∧ last (cfg_variables cfg_two) = Some final
    ∧ returned (run_cmorization cfg_two).1 ∅ =
        <["comment" :=
            prepend_times (length (cfg_variables cfg_two))
              (binning_text (do_bin_of (cfg_bin_size cfg_two))
                 (cfg_bin_size cfg_two))
              comment]>
          (<["mip" := vc_mip final.2]> (cfg_attributes cfg_two)).
Proof.
  assert (@cmorization _ _ _ _ (listing id []) _ cfg_two "raw" "out" store
          = (Ok (returned (run_cmorization cfg_two).1 ∅),
             (run_cmorization cfg_two).2))
    as Hok by by_evaluation.
  exact (@cmorization_comment_grows _ _ _ _ (listing id []) sym_utilities
           cfg_two "raw" "out" store _ _ Hok).
Defined.

(** The hypotheses of X7 hold for the configuration without [comment]:
    the [KeyError] is raised and the merged file is in the store. *)
Lemma cmorization_without_comment_witness :
  @cmorization _ _ _ _ (listing id []) _ cfg_no_comment "raw" "out" store
    = (Raise (KeyError "comment"),
       <["out/chl_merged.nc" := merged_chl]> store)
  ∧ "out/chl_merged.nc"
    = merged_path "out"
        {| vc_mip := "Omon"; vc_raw := "chlor_a"; vc_file := "chl" |}
  ∧ is_Some (<["out/chl_merged.nc" := merged_chl]> store
               !! "out/chl_merged.nc").
Proof.
  apply (@cmorization_without_comment _ _ _ _ (listing id []) sym_utilities
           cfg_no_comment "raw" "out" store
           ("chl", {| vc_mip := "Omon"; vc_raw := "chlor_a";
                      vc_file := "chl" |}) [] "chl"
           "out/chl_merged.nc" "Data binned using  2 by 2 cells average").
  - by_decision.
  - by_decision.
  - by_evaluation.
  - reflexivity.
  - reflexivity.
  - exact merge_chl_run.
Defined.

(** The hypothesis of X8 holds for the configuration whose second
    variable has no raw file: [cmorization] raises, the raw files are
    still there and so is the merged file of the first variable. *)
Lemma cmorization_failure_removes_nothing_witness :
  (run_cmorization cfg_second_fails).1 = Raise (NameError "newda")
  ∧ dom store ⊆ dom (run_cmorization cfg_second_fails).2
  ∧ "out/chl_merged.nc" ∈ dom (run_cmorization cfg_second_fails).2.
Proof.
  assert (@cmorization _ _ _ _ (listing id []) _ cfg_second_fails
            "raw" "out" store
          = (Raise (NameError "newda"), (run_cmorization cfg_second_fails).2))
    as Hrun by by_evaluation.
  destruct (@cmorization_failure_removes_nothing _ _ _ _ (listing id [])
              sym_utilities sym_save_variable_keeps cfg_second_fails
              "raw" "out" store _ _ Hrun) as [Hkept Hmerged].
  split; [by_evaluation|]. split; [exact Hkept|].
  apply (Hmerged ltac:(by_decision) ltac:(by_decision)
           [("chl", {| vc_mip := "Omon"; vc_raw := "chlor_a";
                       vc_file := "chl" |})]
           [("tos", {| vc_mip := "Omon"; vc_raw := "sst";
                       vc_file := "sst" |})]
           (returned run_first_variable.1
              {| l_glob_attrs := ∅; l_inpfile := None |})
           run_first_variable.2 eq_refl ltac:(by_evaluation)
           ("chl", {| vc_mip := "Omon"; vc_raw := "chlor_a";
                      vc_file := "chl" |})).
  by left.
Defined.

(** The hypotheses of X12 hold for the configuration with two variables:
    a raw file is still there when [cmorization] returns. *)
Lemma cmorization_keeps_other_files_witness :
  "raw/chl-201001.nc" ∈ dom (run_cmorization cfg_two).2.
Proof.
  assert (@cmorization _ _ _ _ (listing id []) _ cfg_two "raw" "out" store
          = (Ok (returned (run_cmorization cfg_two).1 ∅),
             (run_cmorization cfg_two).2))
    as Hok by by_evaluation.
  apply (@cmorization_keeps_other_files _ _ _ _ (listing id [])
           sym_utilities sym_save_variable_keeps cfg_two "raw" "out" store
           _ _ ("kd", {| vc_mip := "Omon"; vc_raw := "kd_490";
                         vc_file := "kd" |}) eq_refl Hok).
  - by_decision.
  - vm_compute. discriminate.
Defined.
